(** * sanityml: discovery, notebook extraction, tool runner and CLI driver

    A shallow embedding of [src/sanityml/core.py] and [src/cli.py].

    Conventions of the embedding:
    - a Python [str] is the list of its code points ([pystr]);
    - a [pathlib] path is the list of its components below the root;
    - code that may raise returns a [result]: [Return v] or [Raise e];
    - what the operating system decides (how a subprocess ends, what a
      notebook file holds, whether a file can be opened for writing) is an
      argument of the function that asks;
    - a text file opened with [encoding="utf-8"] takes every text that can
      be encoded and writes line ends as they are (as on POSIX), and
      printing to the terminal is left out. *)

From Stdlib Require Import String Ascii Decimal DecimalString.
From stdpp Require Import base numbers option list gmap sorting lexico.

Set Warnings "-register-all,-clear-no-such-hyp".
Local Open Scope N_scope.

(** ** Python strings *)

Abbreviation pystr := (list N).

(** An ASCII literal of the source as a [pystr]. *)
Fixpoint lit (s : string) : pystr :=
  match s with
  | EmptyString => []
  | String a s' => N_of_ascii a :: lit s'
  end.
Arguments lit _%_string : simpl never.

(** [str.isspace] on one code point (CPython's [_PyUnicode_IsWhitespace]). *)
Definition is_space (c : N) : bool :=
  ((9 <=? c) && (c <=? 13)) || ((28 <=? c) && (c <=? 32))
  || (c =? 133) || (c =? 160) || (c =? 5760)
  || ((8192 <=? c) && (c <=? 8202))
  || (c =? 8232) || (c =? 8233) || (c =? 8239) || (c =? 8287) || (c =? 12288).

(** The line boundaries of [str.splitlines] (CPython's
    [_PyUnicode_IsLinebreak]); a carriage return followed by a line feed is
    one boundary. *)
Definition is_linebreak (c : N) : bool :=
  ((10 <=? c) && (c <=? 13)) || ((28 <=? c) && (c <=? 30))
  || (c =? 133) || (c =? 8232) || (c =? 8233).

Definition CR : N := 13.
Definition LF : N := 10.

Fixpoint lstrip (s : pystr) : pystr :=
  match s with
  | [] => []
  | c :: s' => if is_space c then lstrip s' else s
  end.

Fixpoint rstrip (s : pystr) : pystr :=
  match s with
  | [] => []
  | c :: s' =>
      match rstrip s' with
      | [] => if is_space c then [] else [c]
      | r => c :: r
      end
  end.

(** [s.strip()] *)
Definition strip (s : pystr) : pystr := rstrip (lstrip s).

(** [s.startswith(p)] *)
Fixpoint startswith (p s : pystr) : bool :=
  match p, s with
  | [], _ => true
  | _ :: _, [] => false
  | a :: p', b :: s' => (a =? b) && startswith p' s'
  end.

(** [s.splitlines(keepends)]: [cur] is the line being read. *)
Fixpoint splitlines_from (keepends : bool) (cur s : pystr) : list pystr :=
  match s with
  | [] => match cur with [] => [] | _ => [cur] end
  | c :: s' =>
      if is_linebreak c then
        if c =? CR then
          match s' with
          | d :: s'' =>
              if d =? LF
              then (cur ++ if keepends then [c; d] else []) :: splitlines_from keepends [] s''
              else (cur ++ if keepends then [c] else []) :: splitlines_from keepends [] s'
          | [] => (cur ++ if keepends then [c] else []) :: splitlines_from keepends [] s'
          end
        else (cur ++ if keepends then [c] else []) :: splitlines_from keepends [] s'
      else splitlines_from keepends (cur ++ [c]) s'
  end.

Definition splitlines (keepends : bool) (s : pystr) : list pystr :=
  splitlines_from keepends [] s.

(** [sep.join(parts)] *)
Fixpoint join (sep : pystr) (parts : list pystr) : pystr :=
  match parts with
  | [] => []
  | [p] => p
  | p :: rest => p ++ sep ++ join sep rest
  end.

(** [str(n)] for a natural number: its decimal digits. *)
Definition str_of_nat (n : nat) : pystr :=
  lit (NilEmpty.string_of_uint (Nat.to_uint n)).

(** Size in bytes of the UTF-8 encoding of one code point, and of a string:
    what [st_size] reports for a file written with [encoding="utf-8"]. *)
Definition utf8_width (c : N) : N :=
  if c <? 128 then 1 else if c <? 2048 then 2 else if c <? 65536 then 3 else 4.

Definition utf8_size (s : pystr) : N :=
  foldr (fun c n => utf8_width c + n) 0 s.

(** A code point of the surrogate range, which UTF-8 does not encode: a
    string holds one where [json.loads] met an unpaired [\uD800]-[\uDFFF]
    escape, or where a file name has bytes that do not decode. *)
Definition is_surrogate (c : N) : bool := (55296 <=? c) && (c <=? 57343).

(** A string [str.encode("utf-8")] accepts. *)
Definition encodable (s : pystr) : bool := forallb (fun c => negb (is_surrogate c)) s.

(** How many surrogates a string starts with. *)
Fixpoint surrogate_run (s : pystr) : nat :=
  match s with
  | c :: rest => if is_surrogate c then S (surrogate_run rest) else 0
  | [] => 0
  end.

(** The first run of surrogates of a string, from position [pos] on: where
    it starts, its first code point and its length. *)
Fixpoint first_surrogates (pos : nat) (s : pystr) : option (nat * N * nat) :=
  match s with
  | [] => None
  | c :: rest =>
      if is_surrogate c then Some (pos, c, S (surrogate_run rest))
      else first_surrogates (S pos) rest
  end.

(** [%04x] of a code point below 65536. *)
Definition hex_digit (d : N) : N := if d <? 10 then 48 + d else 87 + d.

Definition hex4 (c : N) : pystr :=
  [hex_digit (c / 4096 mod 16); hex_digit (c / 256 mod 16);
   hex_digit (c / 16 mod 16); hex_digit (c mod 16)].

(** ** Exceptions and results *)

(** An exception (a subclass of [Exception]) by what the program looks at:
    [type(e).__name__] and [str(e)]. *)
Record exc := Exc { exc_type : pystr; exc_msg : pystr }.

Inductive result (A : Type) : Type :=
  | Return (a : A)
  | Raise (e : exc).
Arguments Return {A} a.
Arguments Raise {A} e.

Definition bind {A B} (r : result A) (k : A -> result B) : result B :=
  match r with
  | Return a => k a
  | Raise e => Raise e
  end.

Notation "'do' x <- r ; k" := (bind r (fun x => k))
  (at level 10, x pattern, r at level 100, k at level 200).

Definition ValueError (msg : pystr) : exc := Exc (lit "ValueError") msg.
Definition RuntimeError (msg : pystr) : exc := Exc (lit "RuntimeError") msg.
Definition IndexError (msg : pystr) : exc := Exc (lit "IndexError") msg.
Definition TypeError (msg : pystr) : exc := Exc (lit "TypeError") msg.
Definition AttributeError (msg : pystr) : exc := Exc (lit "AttributeError") msg.
Definition UnicodeEncodeError (msg : pystr) : exc := Exc (lit "UnicodeEncodeError") msg.

(** What encoding [text] as UTF-8 raises, if anything: the codec stops at
    the first run of surrogates, and the message names the code point when
    the run is one long and the positions of the run otherwise. *)
Definition encode_error (text : pystr) : option exc :=
  match first_surrogates 0 text with
  | None => None
  | Some (pos, c, 1%nat) =>
      Some (UnicodeEncodeError
              (lit "'utf-8' codec can't encode character '\u" ++ hex4 c
                 ++ lit "' in position " ++ str_of_nat pos
                 ++ lit ": surrogates not allowed"))
  | Some (pos, _, n) =>
      Some (UnicodeEncodeError
              (lit "'utf-8' codec can't encode characters in position " ++ str_of_nat pos
                 ++ lit "-" ++ str_of_nat (pos + n - 1)
                 ++ lit ": surrogates not allowed"))
  end.

(** ** Tool runner ([run_tool]) *)

(** How [subprocess.run(cmd, capture_output=True, text=True, timeout=...)]
    ends: normal completion with the decoded streams and the exit code, or
    one of the exceptions [run_tool] tells apart. *)
Inductive proc_end :=
  | Completed (stdout stderr : pystr) (returncode : Z)
  | FileNotFound
  | TimeoutExpired
  | OtherFailure (e : exc).

(** ** JSON values, as [json.loads] builds them *)

(** [JObj] holds the items of the resulting [dict] (keys are unique, in
    insertion order); [JFloat] only records whether the float is zero, which
    is all that truthiness asks. *)
Inductive json :=
  | JNull
  | JBool (b : bool)
  | JInt (n : Z)
  | JFloat (is_zero : bool)
  | JStr (s : pystr)
  | JArr (items : list json)
  | JObj (items : list (pystr * json)).

(** What reading and parsing a notebook file gives:
    [notebook_path.read_text(encoding="utf-8")] raises, or [json.loads]
    raises, or a value is loaded. *)
Inductive nb_source :=
  | ReadRaises (e : exc)
  | LoadsRaises (e : exc)
  | Loaded (nb : json).

(** ** Paths and the environment *)

Abbreviation path := (list pystr).

(** The world outside the program: what the operating system does with an
    executable, its arguments and a timeout; what each notebook file holds;
    the directory [tempfile.TemporaryDirectory()] hands out; and what
    [open(p, "w", encoding="utf-8")] raises for a path, if anything (an
    [OSError] for a name that is too long, for instance). *)
Record env := Env {
  os_exec : pystr -> list pystr -> Z -> proc_end;
  read_nb : path -> nb_source;
  tmpdir : path;
  open_w : path -> option exc
}.

(** [subprocess.run]: [Popen] takes [args[0]] as the executable, so an empty
    argument vector fails with [IndexError] before anything is launched. *)
Definition subprocess_run (E : env) (cmd : list pystr) (timeout : Z) : proc_end :=
  match cmd with
  | [] => OtherFailure (IndexError (lit "list index out of range"))
  | exe :: args => os_exec E exe args timeout
  end.

(** [a or b] on strings. *)
Definition str_or (a b : pystr) : pystr :=
  match a with [] => b | _ => a end.

(** [run_tool(cmd, timeout=timeout)]; the [label] keyword is never read. *)
Definition run_tool (E : env) (cmd : list pystr) (timeout : Z) : result (pystr * Z) :=
  match subprocess_run E cmd timeout with
  | Completed out err returncode =>
      let stdout := strip out in
      let stderr := strip err in
      let output := str_or stdout stderr in
      Return (output, returncode)
  | FileNotFound =>
      match cmd with
      | [] => Raise (IndexError (lit "list index out of range"))
      | cmd_name :: _ =>
          Return (lit "'" ++ cmd_name ++ lit "' not found. Try: `pip install "
                    ++ cmd_name ++ lit "`", (-1)%Z)
      end
  | TimeoutExpired => Return (lit "timed out", (-1)%Z)
  | OtherFailure e => Return (lit "unexpected error: " ++ exc_msg e, (-1)%Z)
  end.

Definition default_timeout : Z := 120.

(** ** Notebook extractor ([notebook_to_python]) *)

(** [bool(v)] *)
Definition truthy (v : json) : bool :=
  match v with
  | JNull => false
  | JBool b => b
  | JInt n => negb (n =? 0)%Z
  | JFloat is_zero => negb is_zero
  | JStr s => match s with [] => false | _ => true end
  | JArr items => match items with [] => false | _ => true end
  | JObj items => match items with [] => false | _ => true end
  end.

(** [type(v).__name__] *)
Definition type_name (v : json) : pystr :=
  match v with
  | JNull => lit "NoneType"
  | JBool _ => lit "bool"
  | JInt _ => lit "int"
  | JFloat _ => lit "float"
  | JStr _ => lit "str"
  | JArr _ => lit "list"
  | JObj _ => lit "dict"
  end.

(** The interpreter's [AttributeError] for [v.attr] on a value without it. *)
Definition no_attribute (v : json) (attr : pystr) : exc :=
  AttributeError (lit "'" ++ type_name v ++ lit "' object has no attribute '"
                    ++ attr ++ lit "'").

(** The interpreter's [TypeError] for iterating a value that is not iterable. *)
Definition not_iterable (v : json) : exc :=
  TypeError (lit "'" ++ type_name v ++ lit "' object is not iterable").

(** The [TypeError] of a text file's [write] for an argument that is not a
    [str]. *)
Definition write_not_str (v : json) : exc :=
  TypeError (lit "write() argument must be str, not "
               ++ match v with JNull => lit "None" | _ => type_name v end).

(** [items[key]], if the key is there. *)
Fixpoint dict_lookup (key : pystr) (items : list (pystr * json)) : option json :=
  match items with
  | [] => None
  | (k, v) :: rest => if bool_decide (k = key) then Some v else dict_lookup key rest
  end.

(** [v.get(key, default)]: only a [dict] has [get]. *)
Definition py_get (v : json) (key : pystr) (dflt : json) : result json :=
  match v with
  | JObj items => Return (default dflt (dict_lookup key items))
  | _ => Raise (no_attribute v (lit "get"))
  end.

(** [v == "text"] for a literal string. *)
Definition eq_str (v : json) (text : pystr) : bool :=
  match v with
  | JStr s => bool_decide (s = text)
  | _ => false
  end.

(** [iter(v)] unrolled: a list yields its items, a string its characters, a
    dict its keys; nothing else is iterable. *)
Definition py_iter (v : json) : result (list json) :=
  match v with
  | JArr items => Return items
  | JStr s => Return ((fun c => JStr [c]) <$> s)
  | JObj items => Return ((fun kv => JStr (fst kv)) <$> items)
  | _ => Raise (not_iterable v)
  end.

(** [line.strip() and not line.strip().startswith("#")] on a string. *)
Definition is_code_line (line : pystr) : bool :=
  match strip line with
  | [] => false
  | stripped => negb (startswith (lit "#") stripped)
  end.

(** [any(line.strip() and not line.strip().startswith("#") for line in lines)]:
    stops at the first line that counts; a line that is not a string has no
    [strip]. *)
Fixpoint any_code_line (lines : list json) : result bool :=
  match lines with
  | [] => Return false
  | JStr line :: rest => if is_code_line line then Return true else any_code_line rest
  | v :: _ => Raise (no_attribute v (lit "strip"))
  end.

(** The open output file: an action takes the text written so far and gives
    the text written after it, with its result. Once the file is open, the
    device is taken to accept what is written and to close the file: a write
    fails only where the program hands it something it cannot encode. *)
Definition fio (A : Type) : Type := pystr -> pystr * result A.

Definition fio_ret {A} (a : A) : fio A := fun f => (f, Return a).

Definition fio_bind {A B} (m : fio A) (k : A -> fio B) : fio B :=
  fun f =>
    match m f with
    | (f', Return a) => k a f'
    | (f', Raise e) => (f', Raise e)
    end.

Definition fio_lift {A} (r : result A) : fio A := fun f => (f, r).

(** [f.write(text)]: the text is encoded as it is written, and a text
    that cannot be encoded leaves the file as it was. *)
Definition fio_write (text : pystr) : fio unit :=
  fun f =>
    match encode_error text with
    | Some e => (f, Raise e)
    | None => (f ++ text, Return tt)
    end.

Notation "'fdo' x <- m ; k" := (fio_bind m (fun x => k))
  (at level 10, x pattern, m at level 100, k at level 200).
Notation "m ;; k" := (fio_bind m (fun _ => k))
  (at level 100, k at level 200, right associativity).

(** [f.writelines(lines)]: one [write] per item. *)
Fixpoint fio_writelines (lines : list json) : fio unit :=
  match lines with
  | [] => fio_ret tt
  | JStr line :: rest => fio_write line ;; fio_writelines rest
  | v :: _ => fio_lift (Raise (write_not_str v))
  end.

(** The two accepted representations of a cell source, as the list the loop
    then works on; [None] is the [continue] of the source. *)
Definition source_lines (source : json) : option (list json) :=
  match source with
  | JStr s => Some (JStr <$> splitlines true s)
  | JArr items => Some items
  | _ => None
  end.

(** [lines and any(...)] *)
Definition has_code (lines : list json) : result bool :=
  match lines with
  | [] => Return false
  | _ => any_code_line lines
  end.

(** The body of [for i, cell in enumerate(cells)], from index [i] on, with
    the current value of [code_found]; returns the final [code_found]. *)
Fixpoint cells_loop (i : nat) (code_found : bool) (cells : list json) : fio bool :=
  match cells with
  | [] => fio_ret code_found
  | cell :: rest =>
      fdo cell_type <- fio_lift (py_get cell (lit "cell_type") JNull);
      if eq_str cell_type (lit "code") then
        fdo source <- fio_lift (py_get cell (lit "source") (JArr []));
        match source_lines source with
        | None => cells_loop (S i) code_found rest
        | Some lines =>
            fdo found <- fio_lift (has_code lines);
            if found : bool then
              fio_write ([LF] ++ lit "# --- Cell " ++ str_of_nat (i + 1) ++ lit " ---" ++ [LF]) ;;
              fio_writelines lines ;;
              fio_write [LF] ;;
              cells_loop (S i) true rest
            else cells_loop (S i) code_found rest
        end
      else cells_loop (S i) code_found rest
  end.

(** The statements inside [try:], for a notebook called [name], with [src]
    what reading and parsing [notebook_path] gives and [opened] what
    [open(output_path, "w", encoding="utf-8")] raises, if anything. The first
    component tells what happened to the file at [output_path]: [None] when
    it was not opened, [Some text] when it was opened (and truncated) and
    holds [text] when the block is left. *)
Definition notebook_to_python_try (name : pystr) (src : nb_source) (opened : option exc)
  : option pystr * result unit :=
  match src with
  | ReadRaises e => (None, Raise e)
  | LoadsRaises e => (None, Raise e)
  | Loaded nb =>
      match py_get nb (lit "cells") (JArr []) with
      | Raise e => (None, Raise e)
      | Return cells =>
          if negb (truthy cells) then
            (None, Raise (ValueError (lit "No cells in notebook")))
          else
            match opened with
            | Some e => (None, Raise e)
            | None =>
                let body : fio unit :=
                  fio_write (lit "# Converted from " ++ name ++ [LF]) ;;
                  fdo items <- fio_lift (py_iter cells) ;
                  fdo code_found <- cells_loop 0 false items ;
                  if negb code_found
                  then fio_lift (Raise (ValueError (lit "No executable code in notebook")))
                  else fio_ret tt in
                let '(text, r) := body [] in
                (Some text, r)
            end
      end
  end.

(** [notebook_to_python(notebook_path, output_path)], with [name] the
    file name of [notebook_path], [src] what reading and parsing it gives
    and [opened] what opening [output_path] for writing raises, if anything:
    every exception of the block is replaced by a [RuntimeError]. *)
Definition notebook_to_python (name : pystr) (src : nb_source) (opened : option exc)
  : option pystr * result unit :=
  match notebook_to_python_try name src opened with
  | (file, Return tt) => (file, Return tt)
  | (file, Raise e) =>
      (file, Raise (RuntimeError (lit "Conversion failed for " ++ name ++ lit ": "
                                    ++ exc_type e ++ lit ": " ++ exc_msg e)))
  end.

(** ** Paths *)

(** [p.name]: the last component (empty at the root). *)
Definition path_name (p : path) : pystr := default [] (last p).

(** [p.parent] *)
Definition path_parent (p : path) : path := take (length p - 1)%nat p.

(** [str(p)] for an absolute POSIX path. *)
Definition path_str (p : path) : pystr :=
  match p with
  | [] => lit "/"
  | _ => concat ((fun c => lit "/" ++ c) <$> p)
  end.

(** [s.rfind(c)]: the last index of [c], if any. *)
Fixpoint rfind (c : N) (s : pystr) : option nat :=
  match s with
  | [] => None
  | x :: s' =>
      match rfind c s' with
      | Some i => Some (S i)
      | None => if x =? c then Some 0%nat else None
      end
  end.

(** [PurePath.stem] of a file name: the name without its last suffix; a
    leading or a trailing dot starts no suffix. *)
Definition stem (name : pystr) : pystr :=
  match rfind 46 name with
  | Some i =>
      if ((0 <? i)%nat && (i <? length name - 1)%nat) then take i name else name
  | None => name
  end.

(** The order [sorted] uses on paths: [PurePath.__lt__] compares the lists
    of components, each component by code points. *)
Definition path_lt : relation path := lexico.

(** [sorted] only asks [<]; it keeps [x] before [y] unless [y < x]. *)
Definition path_le : relation path := fun p q => ¬ path_lt q p.

Definition sorted (l : list path) : list path := merge_sort path_le l.

(** ** Discovery ([discover_targets]) *)

(** A directory tree: a directory lists its entries by name. *)
Inductive fs_node :=
  | FsFile
  | FsDir (entries : list (pystr * fs_node)).

(** All paths below a node, relative to it; a directory is listed before
    what it holds. *)
Fixpoint walk (n : fs_node) : list path :=
  match n with
  | FsFile => []
  | FsDir entries =>
      (fix walk_entries (es : list (pystr * fs_node)) : list path :=
         match es with
         | [] => []
         | (name, child) :: rest =>
             [name] :: ((fun p => name :: p) <$> walk child) ++ walk_entries rest
         end) entries
  end.

(** [fnmatch] for the patterns of the source, in which only [*] is special:
    [*] stands for any run of characters, also an empty one. *)
Fixpoint fnmatch (pat name : pystr) : bool :=
  match pat with
  | [] => match name with [] => true | _ => false end
  | c :: pat' =>
      if c =? 42 then
        (fix star (nm : pystr) : bool :=
           fnmatch pat' nm || match nm with [] => false | _ :: nm' => star nm' end) name
      else
        match name with
        | [] => false
        | d :: name' => (c =? d) && fnmatch pat' name'
        end
  end.

(** [target.rglob(pat)]: every entry below [target], file or directory,
    whose name matches. *)
Definition rglob (target : path) (tree : fs_node) (pat : pystr) : list path :=
  (fun p => target ++ p) <$> filter (fun p => fnmatch pat (path_name p)) (walk tree).

(** [(target / name).exists()] for a single component [name]. *)
Definition child_exists (tree : fs_node) (name : pystr) : bool :=
  match tree with
  | FsFile => false
  | FsDir entries => bool_decide (name ∈ entries.*1)
  end.

(** The result dict: a key is absent ([None]) when its category was not
    asked for; ["requirements"] maps to a path or to Python's [None]. *)
Record discovery := Discovery {
  py_files : option (list path);
  notebooks : option (list path);
  requirements : option (option path);
  models : option (list path)
}.

Definition model_exts : list pystr :=
  [lit "*.pt"; lit "*.pth"; lit "*.pkl"; lit "*.joblib"; lit "*.h5"; lit "*.safetensors"].

Definition discover_targets (target : path) (tree : fs_node)
    (scan_notebooks scan_python scan_deps scan_models : bool) : discovery :=
  {| py_files :=
       if scan_python then Some (sorted (rglob target tree (lit "*.py"))) else None;
     notebooks :=
       if scan_notebooks then Some (sorted (rglob target tree (lit "*.ipynb"))) else None;
     requirements :=
       if scan_deps then
         let req_file := target ++ [lit "requirements.txt"] in
         Some (if child_exists tree (lit "requirements.txt") then Some req_file else None)
       else None;
     models :=
       if scan_models then
         let models : gset path :=
           list_to_set (ext ← model_exts; rglob target tree ext) in
         Some (sorted (elements models))
       else None |}.

(** [discovery.get("py_files", [])] and its siblings. *)
Definition get_py_files (d : discovery) : list path := default [] (py_files d).
Definition get_notebooks (d : discovery) : list path := default [] (notebooks d).
Definition get_models (d : discovery) : list path := default [] (models d).
(** [discovery.get("requirements")] *)
Definition get_requirements (d : discovery) : option path := mjoin (requirements d).

(** ** Scan orchestrator *)

(** The two markers the literals of [core.py] start with, as the file
    spells them. *)
Definition skip_mark : pystr := [226; 169].
Definition warn_mark : pystr := [226; 353; 160].

Definition bandit_cmd (paths : list path) : list pystr :=
  [lit "bandit"; lit "-r"] ++ (path_str <$> paths) ++ [lit "-f"; lit "txt"].

Definition scan_python_files (E : env) (target_paths : list path) : result (pystr * Z) :=
  match target_paths with
  | [] => Return (skip_mark ++ lit " No Python files to scan", 0%Z)
  | _ => run_tool E (bandit_cmd target_paths) default_timeout
  end.

(** The temporary file a notebook is extracted to:
    [Path(tmpdir) / f"{nb.stem}_{nb.parent.name}.py"]. *)
Definition py_name (nb : path) : pystr :=
  stem (path_name nb) ++ lit "_" ++ path_name (path_parent nb) ++ lit ".py".

Definition py_path (E : env) (nb : path) : path := tmpdir E ++ [py_name nb].

(** The state of the loop over the notebooks: the files of the temporary
    directory with their text, and the two lists the loop appends to. *)
Record batch := Batch {
  tmp_files : gmap path pystr;
  py_files_nb : list path;
  errors : list pystr
}.

(** [py_path.exists() and py_path.stat().st_size > 30] *)
Definition nontrivial (files : gmap path pystr) (p : path) : bool :=
  match files !! p with
  | Some text => 30 <? utf8_size text
  | None => false
  end.

(** One round of [for nb in notebooks]. *)
Definition convert_one (E : env) (b : batch) (nb : path) : batch :=
  let out := py_path E nb in
  let '(file, r) := notebook_to_python (path_name nb) (read_nb E nb) (open_w E out) in
  let files :=
    match file with
    | Some text => <[out := text]> (tmp_files b)
    | None => tmp_files b
    end in
  match r with
  | Return _ =>
      if nontrivial files out
      then Batch files (py_files_nb b ++ [out]) (errors b)
      else Batch files (py_files_nb b) (errors b)
  | Raise e => Batch files (py_files_nb b) (errors b ++ [exc_msg e])
  end.

Definition convert_batch (E : env) (notebooks : list path) : batch :=
  foldl (convert_one E) (Batch ∅ [] []) notebooks.

Definition scan_notebooks (E : env) (notebooks : list path)
  : result (pystr * Z * list pystr) :=
  match notebooks with
  | [] => Return (skip_mark ++ lit " No notebooks to scan", 0%Z, [])
  | _ =>
      let b := convert_batch E notebooks in
      let error_summary :=
        match errors b with
        | [] => []
        | errs => join [LF] ((fun err => warn_mark ++ lit " " ++ err) <$> errs)
        end in
      match py_files_nb b with
      | _ :: _ =>
          do (output, code) <- run_tool E (bandit_cmd (py_files_nb b)) default_timeout;
          Return (strip (error_summary ++ [LF] ++ output), code, errors b)
      | [] =>
          match errors b with
          | [] => Return (warn_mark ++ lit " No executable code in notebooks", 0%Z, [])
          | _ => Return (error_summary, 0%Z, errors b)
          end
      end
  end.

Definition scan_dependencies (E : env) (req_file : option path) : result (pystr * Z) :=
  match req_file with
  | None => Return (skip_mark ++ lit " No requirements.txt", 0%Z)
  | Some req => run_tool E [lit "pip-audit"; lit "-r"; path_str req] default_timeout
  end.

Definition scan_models (E : env) (models : list path) : result (pystr * Z) :=
  match models with
  | [] => Return (skip_mark ++ lit " No model files to scan", 0%Z)
  | _ => run_tool E ([lit "modelscan"; lit "-p"] ++ (path_str <$> models)) default_timeout
  end.

(** ** Command-line surface ([cli.py]) *)

(** [_print_scan_section(title, output, code)] by what it returns; what it
    prints is left out. [None] is the bare [return] taken when there is
    nothing to print, [Some (has_issue, has_error)] the final [return]. *)
Definition _print_scan_section (output : pystr) (code : Z) : option (bool * bool) :=
  let lines := match output with [] => [] | _ => splitlines false output end in
  match lines with
  | [] => None
  | _ => Some (bool_decide (code = 1%Z), bool_decide (2 ≤ code)%Z)
  end.

(** [issue, error = value]: unpacking [None] raises. *)
Definition unpack_pair (value : option (bool * bool)) : result (bool * bool) :=
  match value with
  | Some flags => Return flags
  | None => Raise (TypeError (lit "cannot unpack non-iterable NoneType object"))
  end.

(** The categories [main] scans, from its five flags:
    (python, notebooks, dependencies, models). *)
Definition scan_selection (full python notebooks deps models : bool)
  : bool * bool * bool * bool :=
  let any_granular := python || notebooks || deps || models in
  let do_scan_python := python || negb any_granular in
  let do_scan_notebooks := notebooks || negb any_granular in
  let do_scan_deps := deps || negb any_granular in
  let do_scan_models := models || negb any_granular in
  (do_scan_python, do_scan_notebooks, do_scan_deps, do_scan_models).

(** The four blocks of the scan phase; each takes and gives back
    [(any_issue, any_error)]. *)
Definition python_phase (E : env) (d : discovery) (acc : bool * bool) : result (bool * bool) :=
  let '(any_issue, any_error) := acc in
  do (output, code) <- scan_python_files E (get_py_files d);
  do (issue, error) <- unpack_pair (_print_scan_section output code);
  Return (any_issue || issue, any_error || error).

Definition notebooks_phase (E : env) (d : discovery) (acc : bool * bool) : result (bool * bool) :=
  let '(any_issue, any_error) := acc in
  do (output, code, _) <- scan_notebooks E (get_notebooks d);
  do (issue, error) <- unpack_pair (_print_scan_section output code);
  Return (any_issue || issue, any_error || error).

Definition deps_phase (E : env) (d : discovery) (acc : bool * bool) : result (bool * bool) :=
  let '(any_issue, any_error) := acc in
  do (output, code) <- scan_dependencies E (get_requirements d);
  do (issue, error) <- unpack_pair (_print_scan_section output code);
  Return (any_issue || issue, any_error || error).

Definition models_phase (E : env) (d : discovery) (acc : bool * bool) : result (bool * bool) :=
  let '(any_issue, any_error) := acc in
  do (output, code) <- scan_models E (get_models d);
  do (issue, error) <- unpack_pair (_print_scan_section output code);
  Return (any_issue || issue, any_error || error).

(** [main], for a target that is an existing directory holding [tree]:
    [Return n] is [sys.exit(n)], [Raise e] an exception nobody catches. The
    banner, the sections printed on the way and the report of
    [generate_report_summary] are left out: they change neither flag. *)
Definition main (E : env) (target : path) (tree : fs_node)
    (full python notebooks deps models : bool) : result Z :=
  let '(do_scan_python, do_scan_notebooks, do_scan_deps, do_scan_models) :=
    scan_selection full python notebooks deps models in
  let d := discover_targets target tree
             do_scan_notebooks do_scan_python do_scan_deps do_scan_models in
  let acc := (false, false) in
  do acc <- (if do_scan_python then python_phase E d acc else Return acc);
  do acc <- (if do_scan_notebooks then notebooks_phase E d acc else Return acc);
  do acc <- (if do_scan_deps then deps_phase E d acc else Return acc);
  do acc <- (if do_scan_models then models_phase E d acc else Return acc);
  let '(any_issue, any_error) := acc in
  Return (if any_issue || any_error then 1%Z else 0%Z).

(** ** Notions the statements below use *)

(** [t] is [s] with its leading and trailing whitespace removed. *)
Definition trimmed_of (s t : pystr) : Prop :=
  (exists pre post,
      s = pre ++ t ++ post
      /\ forallb is_space pre = true /\ forallb is_space post = true)
  /\ (forall c, head t = Some c -> is_space c = false)
  /\ (forall c, last t = Some c -> is_space c = false).

(** [sub] occurs in [s]. *)
Definition contains (sub s : pystr) : Prop :=
  exists pre post, s = pre ++ sub ++ post.

(** *** Notebooks, in the words of the specification *)

Definition is_str (v : json) : bool :=
  match v with JStr _ => true | _ => false end.

(** The strings among the items of a list. *)
Definition strings_of (items : list json) : list pystr :=
  omap (fun v => match v with JStr s => Some s | _ => None end) items.

(** The text lines of a cell, whichever way its source is stored. *)
Definition cell_text_lines (cell : json) : list pystr :=
  match cell with
  | JObj items =>
      match default (JArr []) (dict_lookup (lit "source") items) with
      | JStr s => splitlines true s
      | JArr lines => strings_of lines
      | _ => []
      end
  | _ => []
  end.

(** A cell with at least one non-blank line whose stripped content does not
    start with [#]. *)
Definition cell_has_code_line (cell : json) : bool :=
  existsb is_code_line (cell_text_lines cell).

(** A cell of type "code". *)
Definition is_code_cell (cell : json) : bool :=
  match cell with
  | JObj items => eq_str (default JNull (dict_lookup (lit "cell_type") items)) (lit "code")
  | _ => false
  end.

(** A code cell with a line of code: the cells the extractor writes out. *)
Definition counts (cell : json) : bool :=
  is_code_cell cell && cell_has_code_line cell.

(** The cells of a parsed document: the list under ["cells"], if any. *)
Definition cells_of (nb : json) : list json :=
  match nb with
  | JObj items =>
      match dict_lookup (lit "cells") items with
      | Some (JArr cells) => cells
      | _ => []
      end
  | _ => []
  end.

(** When the extractor fails, as C5 words it, its cells being the code
    cells the extractor looks at: the document cannot be parsed, or has zero
    cells, or has no code cell with a line of code. *)
Definition stated_failure (src : nb_source) : Prop :=
  match src with
  | ReadRaises _ | LoadsRaises _ => True
  | Loaded nb =>
      cells_of nb = [] \/ ~ Exists (fun cell => counts cell = true) (cells_of nb)
  end.

(** A cell the loop can work on: an object, and if of type "code" with a
    list as source, then a list of strings. *)
Definition cell_shape_ok (cell : json) : bool :=
  match cell with
  | JObj items =>
      if is_code_cell cell then
        match default (JArr []) (dict_lookup (lit "source") items) with
        | JArr lines => forallb is_str lines
        | _ => true
        end
      else true
  | _ => false
  end.

(** A document of the expected shape: an object whose ["cells"], when not
    empty, is a list of cells the loop can work on. *)
Definition shape_ok (nb : json) : Prop :=
  match nb with
  | JObj items =>
      match default (JArr []) (dict_lookup (lit "cells") items) with
      | JArr cells => Forall (fun cell => cell_shape_ok cell = true) cells
      | v => truthy v = false
      end
  | _ => False
  end.

(** A document with no cell at all: no ["cells"], or an empty value there. *)
Definition no_cells (nb : json) : Prop :=
  match nb with
  | JObj items => truthy (default (JArr []) (dict_lookup (lit "cells") items)) = false
  | _ => False
  end.

(** A cell the extractor writes out and cannot: one of its lines holds a
    surrogate. *)
Definition cell_unencodable (cell : json) : bool :=
  counts cell && negb (forallb encodable (cell_text_lines cell)).

(** When the extractor fails, as amended: the file cannot be read or
    parsed, or the document has not the expected shape, or it has no cell,
    or the output file cannot be opened, or the name of the notebook or a
    line of a cell that is written out cannot be encoded, or none of its
    code cells has a line of code. *)
Definition amended_failure (name : pystr) (src : nb_source) (opened : option exc) : Prop :=
  match src with
  | ReadRaises _ | LoadsRaises _ => True
  | Loaded nb =>
      ~ shape_ok nb
      \/ no_cells nb
      \/ opened <> None
      \/ encodable name = false
      \/ Exists (fun cell => cell_unencodable cell = true) (cells_of nb)
      \/ ~ Exists (fun cell => counts cell = true) (cells_of nb)
  end.

(** The same source stored as a sequence of lines. *)
Definition as_lines (source : json) : json :=
  match source with
  | JStr s => JArr (JStr <$> splitlines true s)
  | v => v
  end.

(** [f] applied to the values under [key]. *)
Definition map_key (key : pystr) (f : json -> json) (items : list (pystr * json))
  : list (pystr * json) :=
  (fun kv => if bool_decide (fst kv = key) then (fst kv, f (snd kv)) else kv) <$> items.

(** A code cell with its source stored as a sequence of lines; any other
    cell as it is. *)
Definition cell_as_lines (cell : json) : json :=
  match cell with
  | JObj items =>
      if is_code_cell cell then JObj (map_key (lit "source") as_lines items) else cell
  | v => v
  end.

(** A notebook with the source of every code cell stored as a sequence of
    lines. *)
Definition notebook_as_lines (nb : json) : json :=
  match nb with
  | JObj items =>
      JObj (map_key (lit "cells")
              (fun cells => match cells with
                            | JArr l => JArr (cell_as_lines <$> l)
                            | v => v
                            end) items)
  | v => v
  end.

(** The text a source stands for. *)
Definition source_text (source : json) : option pystr :=
  match source with
  | JStr s => Some s
  | JArr lines => if forallb is_str lines then Some (concat (strings_of lines)) else None
  | _ => None
  end.

(** A notebook whose conversion raises. *)
Definition conversion_fails (E : env) (nb : path) : Prop :=
  exists e,
    (notebook_to_python (path_name nb) (read_nb E nb) (open_w E (py_path E nb))).2
    = Raise e.

(** *** Directory trees and discovery results *)

(** A tree as a file system has it: no directory lists a name twice. *)
Fixpoint wf_tree (n : fs_node) : Prop :=
  match n with
  | FsFile => True
  | FsDir entries =>
      NoDup entries.*1
      /\ (fix all (es : list (pystr * fs_node)) : Prop :=
            match es with
            | [] => True
            | (_, child) :: rest => wf_tree child /\ all rest
            end) entries
  end.

(** The paths one entry of a directory contributes to [walk]. *)
Definition below (e : pystr * fs_node) : list path :=
  [e.1] :: ((fun p => e.1 :: p) <$> walk e.2).

(** [p] is an entry of the tree under [target]. *)
Definition listed (target : path) (tree : fs_node) (p : path) : Prop :=
  exists rel, p = target ++ rel /\ rel ∈ walk tree.

Definition model_suffixes : list pystr :=
  [lit ".pt"; lit ".pth"; lit ".pkl"; lit ".joblib"; lit ".h5"; lit ".safetensors"].

(** A list in strictly ascending path order, hence without duplicates, of
    entries of the tree whose names end in one of the suffixes. *)
Definition sorted_unique_with (target : path) (tree : fs_node)
    (suffixes : list pystr) (l : list path) : Prop :=
  StronglySorted path_lt l
  /\ NoDup l
  /\ Forall (fun p => listed target tree p
                      /\ exists ext, ext ∈ suffixes /\ ext `suffix_of` path_name p) l.

(** ** Sample worlds *)

Module Sample.

Definition code_cell (source : json) : json :=
  JObj [(lit "cell_type", JStr (lit "code")); (lit "source", source)].

Definition notebook (cells : list json) : json := JObj [(lit "cells", JArr cells)].

(** One code cell holding [print(1)]. *)
Definition nb_hi : json := notebook [code_cell (JStr (lit "print(1)"))].

(** A code cell with a line of code, and then a cell that is no object. *)
Definition nb_odd : json := notebook [code_cell (JStr (lit "print(1)")); JInt 5].

(** One code cell whose line of code holds the unpaired surrogate of the
    escape [\ud800]. *)
Definition nb_surrogate : json :=
  notebook [code_cell (JStr (lit "s = '" ++ [55296] ++ lit "'"))].

Definition tmp : path := [lit "tmp"; lit "tmpab12cd"].
Definition target : path := [lit "home"; lit "user"; lit "proj"].

(** No scanner is installed. *)
Definition no_tools : env :=
  Env (fun _ _ _ => FileNotFound) (fun _ => Loaded nb_hi) tmp (fun _ => None).

(** Every scanner runs, prints nothing and exits with 0. *)
Definition silent_tools : env :=
  Env (fun _ _ _ => Completed [] [] 0) (fun _ => Loaded nb_hi) tmp (fun _ => None).

(** Every scanner prints a report in surrounding blank space and exits
    with 0. *)
Definition clean_tools : env :=
  Env (fun _ _ _ => Completed (lit "  No issues identified." ++ [LF]) (lit "warning") 0)
      (fun _ => Loaded nb_hi) tmp (fun _ => None).

(** Scanners are missing and no notebook can be parsed. *)
Definition broken_notebooks : env :=
  Env (fun _ _ _ => FileNotFound)
      (fun _ => LoadsRaises (Exc (lit "JSONDecodeError")
                                 (lit "Expecting value: line 1 column 1 (char 0)")))
      tmp (fun _ => None).

Definition tree_requirements : fs_node := FsDir [(lit "requirements.txt", FsFile)].

Definition tree_one_py : fs_node := FsDir [(lit "train.py", FsFile)].

(** Two notebooks of the same name in two folders of the same name. *)
Definition tree_two_notebooks : fs_node :=
  FsDir [(lit "a", FsDir [(lit "x", FsDir [(lit "nb.ipynb", FsFile)])]);
         (lit "b", FsDir [(lit "x", FsDir [(lit "nb.ipynb", FsFile)])])].

Definition nb_a : path := target ++ [lit "a"; lit "x"; lit "nb.ipynb"].
Definition nb_b : path := target ++ [lit "b"; lit "x"; lit "nb.ipynb"].

(** The second of them holds other code than the first. *)
Definition nb_other : json := notebook [code_cell (JArr [JStr (lit "import os")])].

Definition two_notebooks : env :=
  Env (fun _ _ _ => Completed (lit "No issues identified.") [] 0)
      (fun p => if bool_decide (p = nb_a) then Loaded nb_hi else Loaded nb_other)
      tmp (fun _ => None).

(** A tree with every kind of entry, nested. *)
Definition tree_mixed : fs_node :=
  FsDir [(lit "requirements.txt", FsFile);
         (lit "src", FsDir [(lit "train.py", FsFile); (lit "eval.py", FsFile);
                            (lit "notes.ipynb", FsFile)]);
         (lit "weights", FsDir [(lit "m.pt", FsFile); (lit "m.pth", FsFile);
                                (lit "old.h5", FsFile); (lit "README", FsFile)]);
         (lit "a.py", FsFile)].

End Sample.

(** ** More sample worlds *)

Module Runs.

(** Every scanner reports an issue and exits with 1. *)
Definition reporting_tools : env :=
  Env (fun _ _ _ => Completed (lit ">> Issue: [B602] subprocess call with shell=True") [] 1)
      (fun _ => Loaded Sample.nb_hi) Sample.tmp (fun _ => None).


Definition json_error : pystr :=
  lit "Conversion failed for nb.ipynb: JSONDecodeError: Expecting value: line 1 column 1 (char 0)".

(** The name of a notebook file whose bytes do not decode: [caf\xe9.ipynb]
    read with [surrogateescape]. *)
Definition undecodable_name : pystr := lit "caf" ++ [56553] ++ lit ".ipynb".

(** The [OSError] of opening a file whose name is longer than the file
    system allows. *)
Definition name_too_long (p : path) : exc :=
  Exc (lit "OSError") (lit "[Errno 36] File name too long: '" ++ path_str p ++ lit "'").

(** No scanner is installed, and a file name takes at most 255 bytes. *)
Definition short_names : env :=
  Env (fun _ _ _ => FileNotFound) (fun _ => Loaded Sample.nb_hi) Sample.tmp
      (fun p => if 255 <? utf8_size (path_name p) then Some (name_too_long p) else None).

(** A notebook whose name is within the limit while the name of its
    extraction file is not. *)
Definition long_nb : path :=
  Sample.target ++ [lit "experiments"; replicate 245 113 ++ lit ".ipynb"].

End Runs.

(** ** Reporter ([generate_report_summary]) *)

Definition issues_line : pystr := [287; 376; 353; 168; 32] ++ lit "Issues detected.".
Definition tool_errors_line : pystr :=
  [226; 353; 160; 239; 184; 32; 32] ++ lit "Scan completed with tool errors.".
Definition all_passed_line : pystr := [226; 339; 8230; 32] ++ lit "All checks passed.".

(** [generate_report_summary]; [duration_text] is the text of
    [f"{duration:.1f}"], which the caller's clock decides. *)
Definition generate_report_summary (py_files notebooks models : list path)
    (req_exists : bool) (duration_text : pystr) (any_issue any_error : bool) : pystr :=
  let py_f := if bool_decide (length py_files = 1%nat) then lit "file" else lit "files" in
  let nb_f :=
    if bool_decide (length notebooks = 1%nat) then lit "notebook" else lit "notebooks" in
  let md_f := if bool_decide (length models = 1%nat) then lit "model" else lit "models" in
  let req_text :=
    if req_exists then lit "1 requirements.txt" else lit "no requirements.txt" in
  let status :=
    if any_issue then issues_line
    else if any_error then tool_errors_line
    else all_passed_line in
  status ++ [LF]
  ++ [287; 376; 8221; 32] ++ str_of_nat (length py_files) ++ lit " python " ++ py_f
  ++ lit ", " ++ str_of_nat (length notebooks) ++ lit " " ++ nb_f
  ++ lit ", " ++ str_of_nat (length models) ++ lit " " ++ md_f
  ++ lit ", " ++ req_text ++ lit " scanned" ++ [LF]
  ++ [226; 177; 32; 32] ++ lit "Completed in " ++ duration_text ++ lit "s" ++ [LF].

(** ** What the driver prints for discovery ([_print_discovery]) *)





(** ** Notions the further statements use *)

(** What the extractor writes for the cells from position [i] on: for each
    code cell with a line of code, a separator with its position counted
    from one, its lines as they are, and a line feed. *)
Definition cell_block (i : nat) (cell : json) : pystr :=
  if counts cell then
    [LF] ++ lit "# --- Cell " ++ str_of_nat (i + 1) ++ lit " ---" ++ [LF]
    ++ concat (cell_text_lines cell) ++ [LF]
  else [].

Definition cell_blocks (cells : list json) : pystr :=
  concat (imap cell_block cells).

(** The first line of every extracted file. *)
Definition header_line (name : pystr) : pystr :=
  lit "# Converted from " ++ name ++ [LF].



(** A status code that sets one of the two flags of the driver. *)
Definition flags_run (code : Z) : Prop := code = 1%Z \/ (2 <= code)%Z.

(** The exception of unpacking [None]. *)
Definition unpack_error : exc :=
  TypeError (lit "cannot unpack non-iterable NoneType object").

(** How the error of a failed conversion starts:
    [f"Conversion failed for {notebook_path.name}: "]. *)
Definition failure_prefix (nb : path) : pystr :=
  lit "Conversion failed for " ++ path_name nb ++ lit ": ".

(** What the driver does with the outcome of one category: unpack what
    [_print_scan_section] returns and fold it into the two flags. *)
Definition classify (r : result (pystr * Z)) (acc : bool * bool) : result (bool * bool) :=
  do (output, code) <- r;
  do (issue, error) <- unpack_pair (_print_scan_section output code);
  Return (acc.1 || issue, acc.2 || error).

(** The outcome of the notebook category as the driver keeps it: the list
    of errors is dropped. *)
Definition notebooks_outcome (E : env) (nbs : list path) : result (pystr * Z) :=
  do (output, code, _) <- scan_notebooks E nbs; Return (output, code).

(** The outcomes of the categories a run scans, in the order of [main]. *)
Definition selected_scans (E : env) (target : path) (tree : fs_node)
    (full python notebooks deps models : bool) : list (result (pystr * Z)) :=
  let '(do_scan_python, do_scan_notebooks, do_scan_deps, do_scan_models) :=
    scan_selection full python notebooks deps models in
  let d := discover_targets target tree
             do_scan_notebooks do_scan_python do_scan_deps do_scan_models in
  (if do_scan_python then [scan_python_files E (get_py_files d)] else [])
  ++ (if do_scan_notebooks then [notebooks_outcome E (get_notebooks d)] else [])
  ++ (if do_scan_deps then [scan_dependencies E (get_requirements d)] else [])
  ++ (if do_scan_models then [scan_models E (get_models d)] else []).

Fixpoint classify_all (rs : list (result (pystr * Z))) (acc : bool * bool)
  : result (bool * bool) :=
  match rs with
  | [] => Return acc
  | r :: rest => do acc' <- classify r acc; classify_all rest acc'
  end.


(** How the warning line of a notebook that failed starts. *)
Definition warning_start (nb : path) : pystr :=
  warn_mark ++ lit " Conversion failed for " ++ path_name nb ++ lit ":".

(** ** Facts about the string operations *)

Section StringFacts.

Lemma lstrip_split s :
  exists pre, s = pre ++ lstrip s /\ forallb is_space pre = true.
Proof.
  induction s as [|c s IH]; simpl.
  - by exists [].
  - destruct (is_space c) eqn:Hc.
    + destruct IH as (pre & Hs & Hpre).
      exists (c :: pre); simpl. rewrite Hc, Hpre. split; [by f_equal|done].
    + by exists [].
Qed.

Lemma lstrip_head s c : head (lstrip s) = Some c -> is_space c = false.
Proof.
  induction s as [|d s IH]; simpl; [done|].
  destruct (is_space d) eqn:Hd; [done|].
  simpl. by intros [= <-].
Qed.

Lemma rstrip_split s :
  exists post, s = rstrip s ++ post /\ forallb is_space post = true.
Proof.
  induction s as [|c s IH]; simpl.
  - by exists [].
  - destruct IH as (post & Hs & Hpost).
    destruct (rstrip s) as [|r rs] eqn:Hr.
    + destruct (is_space c) eqn:Hc.
      * exists (c :: post). simpl in *. rewrite Hc, Hpost. by subst.
      * exists post. simpl in *. by subst.
    + exists post. split; [|done]. simpl. by rewrite Hs at 1.
Qed.

Lemma rstrip_last s c : last (rstrip s) = Some c -> is_space c = false.
Proof.
  induction s as [|d s IH]; simpl; [done|].
  destruct (rstrip s) as [|r rs] eqn:Hr.
  - destruct (is_space d) eqn:Hd; simpl; [done|]. by intros [= <-].
  - intros Hl. apply IH. by rewrite last_cons_cons in Hl.
Qed.

Lemma rstrip_head s c : head (rstrip s) = Some c -> head s = Some c.
Proof.
  destruct s as [|d s]; simpl; [done|].
  destruct (rstrip s); [destruct (is_space d)|]; simpl; done.
Qed.

Lemma strip_trimmed s : trimmed_of s (strip s).
Proof.
  unfold trimmed_of, strip. split; [|split].
  - destruct (lstrip_split s) as (pre & Hs & Hpre).
    destruct (rstrip_split (lstrip s)) as (post & Hl & Hpost).
    exists pre, post. split; [|done]. by rewrite <- Hl.
  - intros c Hc. eapply lstrip_head, rstrip_head, Hc.
  - apply rstrip_last.
Qed.

Lemma splitlines_from_nil keepends cur s :
  splitlines_from keepends cur s = [] <-> cur = [] /\ s = [].
Proof.
  revert cur. induction s as [|c s IH]; intros cur; simpl.
  - destruct cur; naive_solver.
  - destruct (is_linebreak c).
    + destruct (c =? CR); [destruct s as [|d s']; [|destruct (d =? LF)]|];
        naive_solver.
    + rewrite IH. split; [intros [H _]|intros [_ ?]]; [|done].
      by destruct cur.
Qed.

Lemma splitlines_nil keepends s : splitlines keepends s = [] <-> s = [].
Proof. unfold splitlines. rewrite splitlines_from_nil. naive_solver. Qed.

(** Joining the lines kept with their ends gives the string back. *)
Lemma splitlines_from_concat_le n cur s :
  (length s <= n)%nat -> concat (splitlines_from true cur s) = cur ++ s.
Proof.
  revert cur s. induction n as [|n IH]; intros cur s Hn.
  - destruct s; simpl in *; [|lia]. destruct cur; simpl; by rewrite ?app_nil_r.
  - destruct s as [|c s]; [destruct cur; simpl; by rewrite ?app_nil_r|].
    cbn [splitlines_from]. simpl in Hn.
    destruct (is_linebreak c).
    + destruct (c =? CR).
      * destruct s as [|d s']; [simpl; by rewrite <- app_assoc|].
        simpl in Hn.
        destruct (d =? LF); cbn [concat]; rewrite IH by (simpl; lia);
          by rewrite <- app_assoc.
      * cbn [concat]. rewrite IH by lia. by rewrite <- app_assoc.
    + rewrite IH by lia. by rewrite <- app_assoc.
Qed.

Lemma splitlines_concat s : concat (splitlines true s) = s.
Proof. by apply (splitlines_from_concat_le (length s)). Qed.

(** *** What UTF-8 encodes *)

Lemma encodable_app s t : encodable (s ++ t) = encodable s && encodable t.
Proof. apply forallb_app. Qed.

Lemma N_of_digits_small l : (N_of_digits l < 2 ^ N.of_nat (length l))%N.
Proof.
  induction l as [|b l IH]; [done|].
  cbn [N_of_digits length]. rewrite Nat2N.inj_succ, N.pow_succ_r'.
  destruct b; lia.
Qed.

Lemma N_of_ascii_small a : (N_of_ascii a < 256)%N.
Proof. destruct a. apply (N_of_digits_small [_; _; _; _; _; _; _; _]). Qed.

(** The literals of the source are ASCII. *)
Lemma encodable_lit s : encodable (lit s) = true.
Proof.
  induction s as [|a s IH]; [done|].
  change (encodable (lit (String a s)))
    with (negb (is_surrogate (N_of_ascii a)) && encodable (lit s)).
  rewrite IH, andb_true_r.
  unfold is_surrogate. pose proof (N_of_ascii_small a).
  apply negb_true_iff, andb_false_iff. left. apply N.leb_gt. lia.
Qed.

Lemma first_surrogates_None pos s :
  first_surrogates pos s = None <-> encodable s = true.
Proof.
  revert pos. induction s as [|c s IH]; intros pos; [done|].
  change (encodable (c :: s)) with (negb (is_surrogate c) && encodable s).
  cbn [first_surrogates].
  destruct (is_surrogate c); simpl; [done|]. apply IH.
Qed.

Lemma encode_error_None text : encode_error text = None <-> encodable text = true.
Proof.
  rewrite <- (first_surrogates_None 0). unfold encode_error.
  destruct (first_surrogates 0 text) as [[[pos c] [|[|n]]]|]; done.
Qed.

(** Whatever the codec raises is a [UnicodeEncodeError]. *)
Lemma encode_error_type text e :
  encode_error text = Some e -> exc_type e = lit "UnicodeEncodeError".
Proof.
  unfold encode_error.
  destruct (first_surrogates 0 text) as [[[pos c] [|[|n]]]|]; by intros [= <-].
Qed.

End StringFacts.

(** ** The tool runner *)

Section ToolRunner.

Context (E : env).

(** Only a vector with an executable in it can fail to find one. *)
Lemma file_not_found_has_executable cmd timeout :
  subprocess_run E cmd timeout = FileNotFound -> exists exe args, cmd = exe :: args.
Proof. destruct cmd as [|exe args]; [done|]. by exists exe, args. Qed.

(** C4: for every argument vector and timeout [run_tool] returns a pair and
    raises nothing; a missing executable gives code -1 and a message that
    holds the executable's name and a [pip install] hint for it, a timeout
    gives ("timed out", -1), and any other failure of the invocation gives
    "unexpected error: ..." with -1. *)
Theorem run_tool_never_raises cmd timeout :
  (exists message code, run_tool E cmd timeout = Return (message, code))
  /\ (subprocess_run E cmd timeout = FileNotFound ->
      exists exe args message,
        cmd = exe :: args
        /\ run_tool E cmd timeout = Return (message, (-1)%Z)
        /\ message = lit "'" ++ exe ++ lit "' not found. Try: `pip install "
                       ++ exe ++ lit "`"
        /\ contains exe message
        /\ contains (lit "pip install " ++ exe) message)
  /\ (subprocess_run E cmd timeout = TimeoutExpired ->
      run_tool E cmd timeout = Return (lit "timed out", (-1)%Z))
  /\ (forall e, subprocess_run E cmd timeout = OtherFailure e ->
      run_tool E cmd timeout = Return (lit "unexpected error: " ++ exc_msg e, (-1)%Z)).
Proof.
  split; [|split; [|split]].
  - unfold run_tool.
    destruct (subprocess_run E cmd timeout) eqn:Hrun; eauto.
    destruct (file_not_found_has_executable _ _ Hrun) as (exe & args & ->); eauto.
  - intros Hrun.
    destruct (file_not_found_has_executable _ _ Hrun) as (exe & args & ->).
    exists exe, args. eexists. split; [done|].
    unfold run_tool. rewrite Hrun. split; [done|]. split; [done|]. split.
    + by exists (lit "'"), (lit "' not found. Try: `pip install " ++ exe ++ lit "`").
    + exists (lit "'" ++ exe ++ lit "' not found. Try: `"), (lit "`").
      by rewrite <- !app_assoc.
  - intros Hrun. unfold run_tool. by rewrite Hrun.
  - intros e Hrun. unfold run_tool. by rewrite Hrun.
Qed.

(** C8: when the subprocess completes, [run_tool] returns its exit code,
    and as output the trimmed standard output if that is not empty, else
    the trimmed standard error. *)
Theorem run_tool_completed cmd timeout out err returncode :
  subprocess_run E cmd timeout = Completed out err returncode ->
  exists output,
    run_tool E cmd timeout = Return (output, returncode)
    /\ trimmed_of out (strip out)
    /\ trimmed_of err (strip err)
    /\ (strip out <> [] -> output = strip out)
    /\ (strip out = [] -> output = strip err).
Proof.
  intros Hrun. exists (str_or (strip out) (strip err)).
  unfold run_tool. rewrite Hrun.
  split; [done|]. split; [apply strip_trimmed|]. split; [apply strip_trimmed|].
  unfold str_or. destruct (strip out); split; done.
Qed.

End ToolRunner.

Lemma run_tool_never_raises_witness :
  run_tool Sample.no_tools [lit "bandit"; lit "-r"] 120
  = Return (lit "'bandit' not found. Try: `pip install bandit`", (-1)%Z).
Proof.
  destruct (run_tool_never_raises Sample.no_tools [lit "bandit"; lit "-r"] 120)
    as (_ & Hmissing & _).
  destruct (Hmissing eq_refl) as (exe & args & message & Hcmd & Hrun & -> & _).
  injection Hcmd as <- <-. exact Hrun.
Defined.

Lemma run_tool_completed_witness :
  exists output,
    run_tool Sample.clean_tools [lit "bandit"; lit "-r"] 120 = Return (output, 0%Z)
    /\ output = lit "No issues identified.".
Proof.
  destruct (run_tool_completed Sample.clean_tools [lit "bandit"; lit "-r"] 120
              (lit "  No issues identified." ++ [LF]) (lit "warning") 0 eq_refl)
    as (output & Hrun & _ & _ & Hout & _).
  exists output. split; [exact Hrun|]. apply Hout. vm_compute. discriminate.
Defined.

(** ** The notebook extractor *)

Section Extractor.

Lemma any_code_line_strings ls :
  any_code_line (JStr <$> ls) = Return (existsb is_code_line ls).
Proof.
  induction ls as [|l ls IH]; simpl; [done|].
  destruct (is_code_line l); simpl; done.
Qed.

Lemma has_code_strings ls :
  has_code (JStr <$> ls) = Return (existsb is_code_line ls).
Proof. destruct ls; [done|]. apply any_code_line_strings. Qed.

Lemma all_strings lines :
  forallb is_str lines = true -> lines = JStr <$> strings_of lines.
Proof.
  induction lines as [|v lines IH]; simpl; [done|].
  destruct v; simpl; try done. intros H. f_equal. by apply IH.
Qed.

(** A list with an item that is no string stops the loop: [any] meets the
    item, or [any] is satisfied before it and [writelines] meets it. *)
Lemma any_code_line_not_all_strings lines :
  forallb is_str lines = false -> any_code_line lines <> Return false.
Proof.
  induction lines as [|v lines IH]; simpl; [done|].
  destruct v; simpl; try done.
  intros H. destruct (is_code_line s); [done|]. by apply IH.
Qed.

Lemma bind_lift_return {A B} (a : A) (k : A -> fio B) f :
  fio_bind (fio_lift (Return a)) k f = k a f.
Proof. done. Qed.

Lemma bind_lift_raise {A B} e (k : A -> fio B) f :
  fio_bind (fio_lift (Raise e)) k f = (f, Raise e).
Proof. done. Qed.

(** A write takes the text when it can be encoded, and raises without
    touching the file when it cannot. *)
Lemma write_ok text f :
  encodable text = true -> fio_write text f = (f ++ text, Return tt).
Proof. intros H%encode_error_None. unfold fio_write. by rewrite H. Qed.

Lemma write_raises text f :
  encodable text = false -> exists e, fio_write text f = (f, Raise e).
Proof.
  intros H. unfold fio_write. destruct (encode_error text) as [e|] eqn:He; [by exists e|].
  apply encode_error_None in He. congruence.
Qed.

Lemma bind_write {B} text (k : unit -> fio B) f :
  encodable text = true -> fio_bind (fio_write text) k f = k tt (f ++ text).
Proof. intros H. unfold fio_bind. by rewrite write_ok. Qed.

Lemma bind_write_raises {B} text (k : unit -> fio B) f :
  encodable text = false -> exists e, fio_bind (fio_write text) k f = (f, Raise e).
Proof.
  intros H. destruct (write_raises text f H) as [e He]. exists e.
  unfold fio_bind. by rewrite He.
Qed.

Lemma encodable_separator i :
  encodable ([LF] ++ lit "# --- Cell " ++ str_of_nat (i + 1) ++ lit " ---" ++ [LF]) = true.
Proof. unfold str_of_nat. by rewrite !encodable_app, !encodable_lit. Qed.

Lemma encodable_header name :
  encodable (lit "# Converted from " ++ name ++ [LF]) = encodable name.
Proof. rewrite !encodable_app, encodable_lit. simpl. by rewrite andb_true_r. Qed.

Lemma bind_separator {B} i (k : unit -> fio B) f :
  fio_bind (fio_write ([LF] ++ lit "# --- Cell " ++ str_of_nat (i + 1) ++ lit " ---" ++ [LF])) k f
  = k tt (f ++ [LF] ++ lit "# --- Cell " ++ str_of_nat (i + 1) ++ lit " ---" ++ [LF]).
Proof. apply bind_write, encodable_separator. Qed.

Lemma bind_line_feed {B} (k : unit -> fio B) f :
  fio_bind (fio_write [LF]) k f = k tt (f ++ [LF]).
Proof. by apply bind_write. Qed.

(** Whatever [writelines] does, it only appends to the file. *)
Lemma writelines_prefix lines f f' r :
  fio_writelines lines f = (f', r) -> f `prefix_of` f'.
Proof.
  revert f. induction lines as [|v lines IH]; intros f; simpl.
  - by intros [= <- _].
  - destruct v; try by intros [= <- _].
    unfold fio_bind, fio_write. destruct (encode_error s); [by intros [= <- _]|].
    intros H%IH. etrans; [|exact H]. by apply prefix_app_r.
Qed.

Lemma writelines_strings ls f :
  forallb encodable ls = true ->
  fio_writelines (JStr <$> ls) f = (f ++ concat ls, Return tt).
Proof.
  revert f. induction ls as [|l ls IH]; intros f; simpl.
  - by rewrite app_nil_r.
  - intros [Hl Hls]%andb_true_iff. rewrite bind_write by done.
    rewrite IH by done. by rewrite <- app_assoc.
Qed.

Lemma writelines_unencodable ls f :
  forallb encodable ls = false ->
  exists f' e, fio_writelines (JStr <$> ls) f = (f', Raise e).
Proof.
  revert f. induction ls as [|l ls IH]; intros f; simpl; [done|].
  destruct (encodable l) eqn:Hl; simpl.
  - intros H. rewrite bind_write by done. by apply IH.
  - intros _. destruct (bind_write_raises l (fun _ => fio_writelines (JStr <$> ls)) f Hl)
      as [e He]. by exists f, e.
Qed.

Lemma writelines_not_all_strings lines f :
  forallb is_str lines = false ->
  exists f' e, fio_writelines lines f = (f', Raise e).
Proof.
  revert f. induction lines as [|v lines IH]; intros f; simpl; [done|].
  destruct v; simpl; try (by eexists _, _).
  intros H. unfold fio_bind, fio_write.
  destruct (encode_error s); [by eexists _, _|]. by apply IH.
Qed.

Lemma bind_writelines_strings {B} ls (k : unit -> fio B) f :
  forallb encodable ls = true ->
  fio_bind (fio_writelines (JStr <$> ls)) k f = k tt (f ++ concat ls).
Proof. intros H. unfold fio_bind. by rewrite writelines_strings. Qed.

Lemma bind_writelines_raises {B} lines (k : unit -> fio B) f :
  (exists f' e, fio_writelines lines f = (f', Raise e)) ->
  exists f' e, fio_bind (fio_writelines lines) k f = (f', Raise e) /\ f `prefix_of` f'.
Proof.
  intros (f' & e & Hw). exists f', e. unfold fio_bind. rewrite Hw.
  split; [done|]. by apply writelines_prefix in Hw.
Qed.

Lemma strings_of_strings ls : strings_of (JStr <$> ls) = ls.
Proof. induction ls as [|l ls IH]; [done|]. cbn. f_equal. exact IH. Qed.

(** One round of the loop. A cell of the right shape whose lines can be
    encoded has its block appended, and the loop goes on; any other cell
    stops the loop with an exception, the file keeping what it held. *)
Lemma cell_step cell rest i code_found f :
  (cell_shape_ok cell = true /\ cell_unencodable cell = false
   /\ cells_loop i code_found (cell :: rest) f
      = cells_loop (S i) (code_found || counts cell) rest (f ++ cell_block i cell))
  \/ ((cell_shape_ok cell = false \/ cell_unencodable cell = true)
      /\ exists f' e,
           cells_loop i code_found (cell :: rest) f = (f', Raise e)
           /\ f `prefix_of` f').
Proof.
  destruct cell as [| | | | |?|items];
    try (right; split; [by left|];
         cbn [cells_loop py_get]; rewrite bind_lift_raise; by eexists _, _).
  cbn [cells_loop py_get]. rewrite bind_lift_return.
  unfold cell_unencodable, cell_block, counts, cell_has_code_line, cell_text_lines,
    cell_shape_ok, is_code_cell.
  destruct (eq_str _ _).
  2:{ left. cbn [andb]. by rewrite orb_false_r, app_nil_r. }
  rewrite bind_lift_return.
  destruct (default (JArr []) (dict_lookup (lit "source") items))
    as [| | | |s|lines|?]; cbn [source_lines andb existsb];
    try (left; by rewrite orb_false_r, app_nil_r).
  - (* the source is a string *)
    rewrite has_code_strings, bind_lift_return.
    destruct (existsb is_code_line (splitlines true s));
      [|left; by rewrite orb_false_r, app_nil_r].
    rewrite bind_separator.
    destruct (forallb encodable (splitlines true s)) eqn:Henc; cbn [negb].
    + left. split; [done|]. split; [done|].
      rewrite bind_writelines_strings by done. rewrite bind_line_feed.
      rewrite orb_true_r. f_equal. by rewrite <- !app_assoc.
    + right. split; [by right|].
      edestruct (bind_writelines_raises (B:=bool) (JStr <$> splitlines true s))
        as (f' & e & Hw & Hpre).
      { by apply writelines_unencodable. }
      exists f', e. split; [exact Hw|].
      etrans; [|exact Hpre]. by apply prefix_app_r.
  - (* the source is a list *)
    destruct (forallb is_str lines) eqn:Hstr.
    + pose proof (all_strings lines Hstr) as Hlines.
      remember (strings_of lines) as ls eqn:Hls. rewrite Hlines.
      rewrite has_code_strings, bind_lift_return.
      destruct (existsb is_code_line ls);
        [|left; by rewrite orb_false_r, app_nil_r].
      rewrite bind_separator.
      destruct (forallb encodable ls) eqn:Henc; cbn [negb].
      * left. split; [done|]. split; [done|].
        rewrite bind_writelines_strings by done. rewrite bind_line_feed.
        rewrite orb_true_r. f_equal. by rewrite <- !app_assoc.
      * right. split; [by right|].
        edestruct (bind_writelines_raises (B:=bool) (JStr <$> ls))
          as (f' & e & Hw & Hpre).
        { by apply writelines_unencodable. }
        exists f', e. split; [exact Hw|].
        etrans; [|exact Hpre]. by apply prefix_app_r.
    + right. split; [by left|].
      assert (has_code lines = any_code_line lines) as -> by (by destruct lines).
      pose proof (any_code_line_not_all_strings lines Hstr) as Hany.
      destruct (any_code_line lines) as [[|]|e].
      * rewrite bind_lift_return, bind_separator.
        edestruct (bind_writelines_raises (B:=bool) lines) as (f' & e & Hw & Hpre).
        { by apply writelines_not_all_strings. }
        exists f', e. split; [exact Hw|].
        etrans; [|exact Hpre]. by apply prefix_app_r.
      * done.
      * rewrite bind_lift_raise. by eexists _, _.
Qed.

(** On cells of the right shape whose lines can be encoded, the loop
    appends their blocks and tells whether one of them counts. *)
Lemma cells_loop_blocks cells :
  Forall (fun cell => cell_shape_ok cell = true) cells ->
  Forall (fun cell => cell_unencodable cell = false) cells ->
  forall i code_found f,
    cells_loop i code_found cells f
    = (f ++ concat (imap (fun j => cell_block (i + j)) cells),
       Return (code_found || existsb counts cells)).
Proof.
  induction 1 as [|cell cells Hcell _ IH]; intros Henc i code_found f.
  - simpl. by rewrite app_nil_r, orb_false_r.
  - apply Forall_cons_1 in Henc as [Hc Henc].
    destruct (cell_step cell cells i code_found f) as [(_ & _ & ->)|[[H|H] _]];
      [|congruence..].
    rewrite (IH Henc). cbn [imap concat existsb].
    rewrite Nat.add_0_r, orb_assoc, <- app_assoc. do 4 f_equal.
    apply imap_ext. intros j c _. simpl. f_equal. lia.
Qed.

Lemma cells_loop_shape_ok cells :
  Forall (fun cell => cell_shape_ok cell = true) cells ->
  Forall (fun cell => cell_unencodable cell = false) cells ->
  forall i code_found f, exists f',
    cells_loop i code_found cells f
    = (f', Return (code_found || existsb counts cells)).
Proof. intros Hs He i code_found f. eexists. by apply cells_loop_blocks. Qed.

(** A cell of another shape, or one with a line that cannot be encoded,
    stops the loop with an exception. *)
Lemma cells_loop_raises cells :
  Exists (fun cell => cell_shape_ok cell = false \/ cell_unencodable cell = true) cells ->
  forall i code_found f, exists f' e,
    cells_loop i code_found cells f = (f', Raise e).
Proof.
  induction cells as [|cell cells IH]; intros Hbad i code_found f.
  - by apply Exists_nil in Hbad.
  - destruct (cell_step cell cells i code_found f)
      as [(Hs & He & ->)|[_ (f' & e & Hr & _)]]; [|by exists f', e].
    apply IH. apply Exists_cons in Hbad as [[H|H]|H]; [congruence..|done].
Qed.

Lemma cells_loop_shape_bad cells :
  ~ Forall (fun cell => cell_shape_ok cell = true) cells ->
  forall i code_found f, exists f' e,
    cells_loop i code_found cells f = (f', Raise e).
Proof.
  intros Hbad. apply cells_loop_raises.
  apply not_Forall_Exists in Hbad; [|intros cell; apply _].
  eapply Exists_impl; [exact Hbad|]. intros cell H. left. by apply not_true_is_false.
Qed.

(** A loop that comes to its end met no such cell. *)
Lemma cells_loop_returns cells :
  forall i code_found f f' found,
    cells_loop i code_found cells f = (f', Return found) ->
    Forall (fun cell => cell_shape_ok cell = true) cells
    /\ Forall (fun cell => cell_unencodable cell = false) cells.
Proof.
  induction cells as [|cell cells IH]; intros i code_found f f' found; [done|].
  destruct (cell_step cell cells i code_found f)
    as [(Hs & He & ->)|[_ (f1 & e & -> & _)]]; [|done].
  intros [Hshape Henc]%IH. split; by constructor.
Qed.

(** Whatever the loop does, it only appends to the file. *)
Lemma cells_loop_prefix cells :
  forall i code_found f f' r,
    cells_loop i code_found cells f = (f', r) -> f `prefix_of` f'.
Proof.
  induction cells as [|cell cells IH]; intros i code_found f f' r.
  - simpl. by intros [= <- _].
  - destruct (cell_step cell cells i code_found f)
      as [(_ & _ & ->)|[_ (f1 & e & -> & Hpre)]]; [|by intros [= <- _]].
    intros H%IH. etrans; [|exact H]. by apply prefix_app_r.
Qed.

Lemma existsb_Exists {A} (p : A -> bool) l :
  existsb p l = true <-> Exists (fun x => p x = true) l.
Proof.
  rewrite Exists_exists, existsb_exists. setoid_rewrite list_elem_of_In. naive_solver.
Qed.

Lemma iterated_string_bad c s :
  Exists (fun cell => cell_shape_ok cell = false \/ cell_unencodable cell = true)
    ((fun c => JStr [c]) <$> c :: s).
Proof. apply Exists_cons_hd. by left. Qed.

Lemma iterated_keys_bad kv items :
  Exists (fun cell => cell_shape_ok cell = false \/ cell_unencodable cell = true)
    ((fun kv : pystr * json => JStr (fst kv)) <$> kv :: items).
Proof. apply Exists_cons_hd. by left. Qed.

(** The block inside [try:] raises exactly in the cases of [amended_failure]. *)
Lemma try_raises_iff name src opened :
  (exists e, (notebook_to_python_try name src opened).2 = Raise e)
  <-> amended_failure name src opened.
Proof.
  destruct src as [e|e|nb]; [simpl; split; [done|by eexists]..|].
  destruct nb as [| | | | |?|items];
    try (simpl; split; [intros _; left; tauto | intros _; by eexists]).
  unfold notebook_to_python_try, amended_failure, shape_ok, no_cells, cells_of.
  cbn [py_get].
  destruct (dict_lookup (lit "cells") items) as [cells|] eqn:Hcells;
    [|simpl; split; [intros _; right; left; done | intros _; by eexists]].
  cbn [default from_option]. unfold id.
  destruct (truthy cells) eqn:Htruthy; cbn [negb];
    [|simpl; split; [intros _; right; left; done | intros _; by eexists]].
  destruct opened as [e|];
    [simpl; split; [intros _; right; right; left; done | intros _; by eexists]|].
  destruct (encodable name) eqn:Hname.
  2:{ destruct (bind_write_raises (lit "# Converted from " ++ name ++ [LF])
        (fun _ => fdo items <- fio_lift (py_iter cells) ;
                  fdo code_found <- cells_loop 0 false items ;
                  if negb code_found
                  then fio_lift (Raise (ValueError (lit "No executable code in notebook")))
                  else fio_ret tt) []) as [e He].
      { by rewrite encodable_header. }
      rewrite He. simpl.
      split; [intros _; right; right; right; left; done | intros _; by eexists]. }
  rewrite bind_write by (by rewrite encodable_header).
  destruct cells as [|b|n|z|s|cells|kvs]; simpl in Htruthy; try done.
  - (* a bool *)
    cbn [py_iter]. rewrite bind_lift_raise. simpl.
    split; [intros _; left; intros H; congruence | intros _; by eexists].
  - (* an int *)
    cbn [py_iter]. rewrite bind_lift_raise. simpl.
    split; [intros _; left; intros H; congruence | intros _; by eexists].
  - (* a float *)
    cbn [py_iter]. rewrite bind_lift_raise. simpl.
    split; [intros _; left; intros H; congruence | intros _; by eexists].
  - (* a string: its characters are no cells *)
    destruct s as [|c s]; [done|].
    cbn [py_iter]. rewrite bind_lift_return.
    unfold fio_bind.
    edestruct (cells_loop_raises _ (iterated_string_bad c s) 0%nat false)
      as (f' & e & Hloop).
    rewrite Hloop. simpl.
    split; [intros _; left; done | intros _; by eexists].
  - (* a list *)
    cbn [py_iter]. rewrite bind_lift_return.
    destruct (decide (Forall (fun cell => cell_shape_ok cell = true) cells)) as [Hok|Hbad].
    + destruct (decide (Forall (fun cell => cell_unencodable cell = false) cells))
        as [Henc|Henc].
      * unfold fio_bind.
        rewrite (cells_loop_blocks cells Hok Henc 0%nat false). simpl.
        rewrite <- (existsb_Exists counts).
        destruct (existsb counts cells); simpl.
        -- split; [by intros [e He]|].
           intros [H|[H|[H|[H|[H|H]]]]];
             [done|done|by destruct H|done| |by destruct H].
           apply Exists_exists in H as (cell & Hin & Hcell).
           rewrite Forall_forall in Henc. specialize (Henc cell Hin). congruence.
        -- split; [intros _; do 5 right; done | intros _; by eexists].
      * apply not_Forall_Exists in Henc; [|intros cell; apply _].
        assert (Exists (fun cell => cell_unencodable cell = true) cells) as Hex.
        { eapply Exists_impl; [exact Henc|]. intros cell H.
          by apply not_false_is_true. }
        unfold fio_bind.
        edestruct (cells_loop_raises cells) as (f' & e & Hloop).
        { eapply Exists_impl; [exact Hex|]. intros cell H. by right. }
        rewrite Hloop. simpl.
        split; [intros _; do 4 right; left; done | intros _; by eexists].
    + unfold fio_bind.
      edestruct (cells_loop_shape_bad cells Hbad 0%nat false) as (f' & e & Hloop).
      rewrite Hloop. simpl.
      split; [intros _; by left | intros _; by eexists].
  - (* a dict: its keys are no cells *)
    destruct kvs as [|kv kvs]; [done|].
    cbn [py_iter]. rewrite bind_lift_return.
    unfold fio_bind.
    edestruct (cells_loop_raises _ (iterated_keys_bad kv kvs) 0%nat false)
      as (f' & e & Hloop).
    rewrite Hloop. simpl.
    split; [intros _; left; done | intros _; by eexists].
Qed.

Lemma wrapped_raise name src opened e :
  (notebook_to_python name src opened).2 = Raise e <->
  exists inner,
    (notebook_to_python_try name src opened).2 = Raise inner
    /\ e = RuntimeError (lit "Conversion failed for " ++ name ++ lit ": "
                           ++ exc_type inner ++ lit ": " ++ exc_msg inner).
Proof.
  unfold notebook_to_python.
  destruct (notebook_to_python_try name src opened) as [file [[]|inner]]; simpl.
  - split; [done|by intros (? & ? & _)].
  - split; [intros [= <-]; by exists inner|by intros (? & [= <-] & ->)].
Qed.

(** C5, as amended: the extractor fails exactly when the notebook cannot
    be read or parsed, or the parsed document has not the expected shape,
    or it has no cell, or the output file cannot be opened, or the name of
    the notebook or a line of a code cell that is written out holds a
    surrogate, which UTF-8 does not encode, or none of its code cells has
    a non-blank line whose stripped content does not start with [#]; and
    whatever it raises is a [RuntimeError] whose message holds the notebook
    name, then the type name and the message of the error underneath. *)
Theorem notebook_to_python_fails_iff name src opened :
  ((exists e, (notebook_to_python name src opened).2 = Raise e)
   <-> amended_failure name src opened)
  /\ (forall e, (notebook_to_python name src opened).2 = Raise e ->
        exc_type e = lit "RuntimeError"
        /\ exists inner,
             (notebook_to_python_try name src opened).2 = Raise inner
             /\ exc_msg e = lit "Conversion failed for " ++ name ++ lit ": "
                              ++ exc_type inner ++ lit ": " ++ exc_msg inner).
Proof.
  split.
  - rewrite <- try_raises_iff. split.
    + intros [e He]. apply wrapped_raise in He as (inner & Hinner & _). by exists inner.
    + intros [inner Hinner]. eexists. apply wrapped_raise. by exists inner.
  - intros e He. apply wrapped_raise in He as (inner & Hinner & ->).
    split; [done|]. by exists inner.
Qed.

(** *** The two representations of a cell source *)

Lemma dict_lookup_map_key key k f items :
  dict_lookup key (map_key k f items)
  = if bool_decide (key = k) then f <$> dict_lookup key items
    else dict_lookup key items.
Proof.
  induction items as [|[k' v] items IH]; simpl; [by case_bool_decide|].
  repeat case_bool_decide; simpl in *; subst; try done;
    repeat case_bool_decide; simpl; congruence.
Qed.

Lemma source_lines_as_lines source :
  source_lines (as_lines source) = source_lines source.
Proof. by destruct source. Qed.

Lemma cells_loop_as_lines cells :
  forall i code_found f,
    cells_loop i code_found (cell_as_lines <$> cells) f
    = cells_loop i code_found cells f.
Proof.
  induction cells as [|cell cells IH]; intros i code_found f; [done|].
  destruct cell as [| | | | |?|items];
    try (cbn [fmap list_fmap cell_as_lines cells_loop py_get];
         by rewrite !bind_lift_raise).
  cbn [fmap list_fmap cell_as_lines].
  destruct (is_code_cell (JObj items)) eqn:Hcode.
  - cbn [cells_loop py_get]. rewrite !bind_lift_return.
    rewrite !dict_lookup_map_key.
    rewrite (bool_decide_eq_false_2 (lit "cell_type" = lit "source")) by done.
    rewrite (bool_decide_eq_true_2 (lit "source" = lit "source")) by done.
    unfold is_code_cell in Hcode. rewrite Hcode.
    rewrite !bind_lift_return.
    destruct (dict_lookup (lit "source") items) as [source|];
      cbn [fmap option_fmap option_map default from_option]; unfold id.
    + rewrite source_lines_as_lines.
      destruct (source_lines source) as [lines|]; [|apply IH].
      destruct (has_code lines) as [[|]|e]; rewrite ?bind_lift_return, ?bind_lift_raise;
        [|apply IH|done].
      rewrite !bind_separator. unfold fio_bind at 1 3.
      destruct (fio_writelines lines _) as [f' [[]|e]]; [|done].
      rewrite !bind_line_feed. apply IH.
    + apply IH.
  - cbn [cells_loop py_get]. rewrite !bind_lift_return.
    unfold is_code_cell in Hcode. rewrite Hcode. apply IH.
Qed.

Lemma try_as_lines name nb opened :
  notebook_to_python_try name (Loaded (notebook_as_lines nb)) opened
  = notebook_to_python_try name (Loaded nb) opened.
Proof.
  destruct nb as [| | | | |?|items]; try done.
  unfold notebook_to_python_try, notebook_as_lines. cbn [py_get].
  rewrite dict_lookup_map_key.
  rewrite (bool_decide_eq_true_2 (lit "cells" = lit "cells")) by done.
  destruct (dict_lookup (lit "cells") items) as [cells|]; [|done].
  cbn [fmap option_fmap option_map default from_option]. unfold id.
  destruct cells as [| | | | |cells|?]; try done.
  destruct cells as [|cell cells]; [done|].
  cbn [truthy negb py_iter].
  destruct opened as [e|]; [done|].
  unfold fio_bind at 1 4. destruct (fio_write _ []) as [f [[]|e]]; [|done].
  rewrite !bind_lift_return.
  unfold fio_bind. by rewrite cells_loop_as_lines.
Qed.

Lemma forallb_is_str_strings ls : forallb is_str (JStr <$> ls) = true.
Proof. by induction ls. Qed.

(** C6: a notebook whose code cells store their source as one string and
    the same notebook with each of these sources stored as the sequence of
    its lines are extracted alike: the same file text and the same result;
    the lines of the second put together are the string of the first. *)
Theorem same_output_for_both_representations name nb opened :
  notebook_to_python name (Loaded (notebook_as_lines nb)) opened
  = notebook_to_python name (Loaded nb) opened
  /\ (forall s, source_text (as_lines (JStr s)) = source_text (JStr s)).
Proof.
  split.
  - unfold notebook_to_python. by rewrite try_as_lines.
  - intros s. simpl.
    by rewrite forallb_is_str_strings, strings_of_strings, splitlines_concat.
Qed.

(** The lines are those of [str.splitlines]: a list item that holds a line
    boundary inside (here a carriage return after a comment) is one line for
    the list form and two for the string form, and the two forms are then
    not extracted alike. *)
Example item_with_inner_break_differs :
  let text := lit "# a" ++ [CR] ++ lit "print(1)" in
  (notebook_to_python (lit "n.ipynb")
     (Loaded (Sample.notebook [Sample.code_cell (JStr text)])) None).2 = Return tt
  /\ (notebook_to_python (lit "n.ipynb")
        (Loaded (Sample.notebook [Sample.code_cell (JArr [JStr text])])) None).2
     = Raise (RuntimeError (lit "Conversion failed for n.ipynb: ValueError: No executable code in notebook"))
  /\ as_lines (JStr text) = JArr [JStr (lit "# a" ++ [CR]); JStr (lit "print(1)")].
Proof. vm_compute. done. Qed.

(** *** The size of an extracted file *)

Lemma utf8_size_app s t : utf8_size (s ++ t) = utf8_size s + utf8_size t.
Proof. induction s as [|c s IH]; simpl; [done|]. rewrite IH. lia. Qed.

Lemma cell_block_size i cell :
  counts cell = true -> 17 <= utf8_size (cell_block i cell).
Proof.
  intros H. unfold cell_block. rewrite H, !utf8_size_app.
  change (utf8_size [LF]) with 1.
  change (utf8_size (lit "# --- Cell ")) with 11.
  change (utf8_size (lit " ---")) with 4. lia.
Qed.

Lemma cells_loop_grows cells :
  forall i code_found f f' found,
    cells_loop i code_found cells f = (f', Return found) ->
    utf8_size f <= utf8_size f'
    /\ (found = true -> code_found = false -> utf8_size f + 17 <= utf8_size f').
Proof.
  induction cells as [|cell cells IH]; intros i code_found f f' found.
  - simpl. intros [= <- <-]. split; [lia|congruence].
  - destruct (cell_step cell cells i code_found f)
      as [(_ & _ & ->)|[_ (f1 & e & -> & _)]]; [|done].
    intros [Hle Hfound]%IH. rewrite utf8_size_app in *.
    split; [lia|]. intros -> ->.
    destruct (counts cell) eqn:Hc.
    + pose proof (cell_block_size i cell Hc). lia.
    + specialize (Hfound eq_refl eq_refl). lia.
Qed.

(** A conversion that succeeds leaves a file of more than 30 bytes: the
    header line and one cell separator already take 35. *)
Lemma success_is_nontrivial name src opened file :
  notebook_to_python name src opened = (file, Return tt) ->
  exists text, file = Some text /\ 30 < utf8_size text.
Proof.
  unfold notebook_to_python.
  destruct (notebook_to_python_try name src opened) as [file' [[]|e]] eqn:Htry; [|done].
  intros [= <-]. unfold notebook_to_python_try in Htry.
  destruct src as [e|e|nb]; try done.
  destruct (py_get nb _ _) as [cells|e]; [|done].
  destruct (negb (truthy cells)); [done|].
  destruct opened as [e|]; [done|].
  destruct (encodable name) eqn:Hname.
  2:{ edestruct (bind_write_raises (B:=unit) (lit "# Converted from " ++ name ++ [LF]))
        as [e He]; [by rewrite encodable_header|]. by rewrite He in Htry. }
  rewrite bind_write in Htry by (by rewrite encodable_header).
  destruct (py_iter cells) as [items|e]; rewrite ?bind_lift_return, ?bind_lift_raise in Htry;
    [|done].
  unfold fio_bind in Htry.
  destruct (cells_loop 0 false items _) as [text [[|]|e]] eqn:Hloop; try done.
  apply cells_loop_grows in Hloop as [_ Hsize].
  injection Htry as <-. exists text. split; [done|].
  specialize (Hsize eq_refl eq_refl).
  rewrite !utf8_size_app in Hsize.
  change (utf8_size []) with 0 in Hsize.
  change (utf8_size (lit "# Converted from ")) with 17 in Hsize.
  change (utf8_size [LF]) with 1 in Hsize. lia.
Qed.

End Extractor.

(** Each of the three causes C5 names does make the extractor fail. *)
Lemma stated_failure_fails name src opened :
  stated_failure src -> exists e, (notebook_to_python name src opened).2 = Raise e.
Proof.
  intros H.
  assert (amended_failure name src opened) as [inner Hinner]%try_raises_iff.
  { destruct src as [e|e|nb]; [done..|]. do 5 right.
    destruct H as [H|H]; [|done]. rewrite H. by intros ?%Exists_nil. }
  eexists. apply wrapped_raise. by exists inner.
Qed.

Lemma notebook_to_python_fails_iff_witness :
  exists e,
    (notebook_to_python (lit "empty.ipynb") (Loaded (Sample.notebook [])) None).2 = Raise e.
Proof.
  apply (notebook_to_python_fails_iff (lit "empty.ipynb") (Loaded (Sample.notebook [])) None).
  right. left. reflexivity.
Defined.

(** C5, as stated, fails, also with its cells read as code cells. A
    document that parses and has a code cell with a line of code is none of
    the three cases, and the extractor fails on it when another cell is not
    an object, and when the line of code holds a surrogate, which the output
    file cannot take. *)
Lemma stated_failure_misses :
  ((notebook_to_python (lit "odd.ipynb") (Loaded Sample.nb_odd) None).2
   = Raise (RuntimeError (lit "Conversion failed for odd.ipynb: AttributeError: 'int' object has no attribute 'get'"))
   /\ ~ stated_failure (Loaded Sample.nb_odd))
  /\ ((notebook_to_python (lit "s.ipynb") (Loaded Sample.nb_surrogate) None).2
      = Raise (RuntimeError (lit "Conversion failed for s.ipynb: UnicodeEncodeError: 'utf-8' codec can't encode character '\ud800' in position 5: surrogates not allowed"))
      /\ ~ stated_failure (Loaded Sample.nb_surrogate)).
Proof.
  split; (split; [vm_compute; reflexivity|]).
  - intros [H|H]; [discriminate H|]. apply H. left. vm_compute. reflexivity.
  - intros [H|H]; [discriminate H|]. apply H. left. vm_compute. reflexivity.
Qed.

(** The two failures of the output file at work. A notebook whose name
    is within the limit of the file system can have an extraction name that
    is not: opening the file fails, the conversion with it, and nothing is
    left in the temporary directory. A notebook whose name does not decode
    gets its file opened and left empty, since the header line cannot be
    written. *)
Example output_file_failures :
  (notebook_to_python (path_name Runs.long_nb) (read_nb Runs.short_names Runs.long_nb)
     (open_w Runs.short_names (py_path Runs.short_names Runs.long_nb))).2
  = Raise (RuntimeError
             (lit "Conversion failed for " ++ path_name Runs.long_nb
                ++ lit ": OSError: [Errno 36] File name too long: '"
                ++ path_str (py_path Runs.short_names Runs.long_nb) ++ lit "'"))
  /\ open_w Runs.short_names Runs.long_nb = None
  /\ tmp_files (convert_batch Runs.short_names [Runs.long_nb])
       !! py_path Runs.short_names Runs.long_nb = None
  /\ notebook_to_python Runs.undecodable_name (Loaded Sample.nb_hi) None
     = (Some [],
        Raise (RuntimeError
                 (lit "Conversion failed for " ++ Runs.undecodable_name
                    ++ lit ": UnicodeEncodeError: 'utf-8' codec can't encode character '\udce9' in position 20: surrogates not allowed"))).
Proof. vm_compute. done. Qed.

(** The message of the codec for a run of surrogates, and for one. *)
Example encode_error_messages :
  encode_error (lit "ab" ++ [56320; 56320] ++ lit "cd")
  = Some (UnicodeEncodeError (lit "'utf-8' codec can't encode characters in position 2-3: surrogates not allowed"))
  /\ encode_error ([55296] ++ lit "a" ++ [56320; 56320])
     = Some (UnicodeEncodeError (lit "'utf-8' codec can't encode character '\ud800' in position 0: surrogates not allowed"))
  /\ encode_error (lit "x = 1" ++ [65536; 55295; 57344]) = None.
Proof. vm_compute. done. Qed.

(** ** The command-line driver *)

(** The classification of the final [return] of [_print_scan_section]. *)
Lemma print_scan_section_flags output code :
  output <> [] ->
  _print_scan_section output code
  = Some (bool_decide (code = 1%Z), bool_decide (2 ≤ code)%Z).
Proof.
  intros Hne. unfold _print_scan_section.
  destruct output as [|c output]; [done|].
  destruct (splitlines false (c :: output)) eqn:Hl; [|done].
  by apply splitlines_nil in Hl.
Qed.

(** Nothing to print: the bare [return]. *)
Lemma print_scan_section_empty code : _print_scan_section [] code = None.
Proof. done. Qed.

(** A code of -1 sets neither flag. *)
Lemma print_scan_section_sentinel output :
  output <> [] -> _print_scan_section output (-1) = Some (false, false).
Proof. intros Hne. by rewrite print_scan_section_flags. Qed.

(** Whatever the category, a scan that ends with the runner's -1 and some
    message leaves both flags as they were. *)
Lemma sentinel_sets_no_flag output (acc : bool * bool) :
  output <> [] ->
  (do (issue, error) <- unpack_pair (_print_scan_section output (-1));
   Return (acc.1 || issue, acc.2 || error)) = Return acc.
Proof.
  intros Hne. rewrite (print_scan_section_sentinel output Hne). simpl.
  destruct acc as [any_issue any_error]. simpl. by rewrite !orb_false_r.
Qed.

(** A Python scan that ends with an empty output stops the run. *)
Lemma empty_output_raises E d acc code :
  scan_python_files E (get_py_files d) = Return ([], code) ->
  python_phase E d acc
  = Raise (TypeError (lit "cannot unpack non-iterable NoneType object")).
Proof.
  intros Hscan. unfold python_phase. destruct acc as [any_issue any_error].
  by rewrite Hscan.
Qed.

(** C1 (the code differs): with the dependency scanner missing, the
    dependency category ends with the runner's -1, [_print_scan_section]
    reports neither an issue nor an error for it, and the run exits with 0. *)
Theorem missing_tool_exits_zero :
  scan_dependencies Sample.no_tools (Some (Sample.target ++ [lit "requirements.txt"]))
  = Return (lit "'pip-audit' not found. Try: `pip install pip-audit`", (-1)%Z)
  /\ _print_scan_section (lit "'pip-audit' not found. Try: `pip install pip-audit`") (-1)
     = Some (false, false)
  /\ main Sample.no_tools Sample.target Sample.tree_requirements
          false false false true false = Return 0%Z.
Proof. vm_compute. done. Qed.

(** C2 (the code differs): a scanner that completes without printing
    anything makes [_print_scan_section] return [None], and [main] ends with
    the [TypeError] of unpacking it. *)
Theorem silent_tool_uncaught :
  scan_python_files Sample.silent_tools [Sample.target ++ [lit "train.py"]]
  = Return ([], 0%Z)
  /\ _print_scan_section [] 0 = None
  /\ main Sample.silent_tools Sample.target Sample.tree_one_py
          false true false false false
     = Raise (TypeError (lit "cannot unpack non-iterable NoneType object")).
Proof. vm_compute. done. Qed.

(** Without a granular flag every category is scanned, whatever [--full]. *)
Lemma no_granular_flag_scans_all full :
  scan_selection full false false false false = (true, true, true, true).
Proof. done. Qed.

(** [--full] plays no part in the selection. *)
Lemma full_flag_ignored full python notebooks deps models :
  scan_selection full python notebooks deps models
  = scan_selection false python notebooks deps models.
Proof. done. Qed.

(** C7 (the code differs): with [--full --python] only the Python category
    is selected, and discovery leaves the three other keys out. *)
Theorem full_with_python_scans_python_only :
  scan_selection true true false false false = (true, false, false, false)
  /\ discover_targets Sample.target Sample.tree_mixed false true false false
     = Discovery (Some [Sample.target ++ [lit "a.py"];
                        Sample.target ++ [lit "src"; lit "eval.py"];
                        Sample.target ++ [lit "src"; lit "train.py"]])
                 None None None.
Proof. vm_compute. done. Qed.

(** ** Temporary extraction files *)

Section ExtractionFiles.

Context (E : env).

Lemma py_path_eq nb1 nb2 :
  py_path E nb1 = py_path E nb2 <-> py_name nb1 = py_name nb2.
Proof.
  unfold py_path. split; [|by intros ->].
  intros H. apply app_inv_head in H. by injection H.
Qed.

Lemma py_name_eq nb1 nb2 :
  py_name nb1 = py_name nb2 <->
  stem (path_name nb1) ++ lit "_" ++ path_name (path_parent nb1)
  = stem (path_name nb2) ++ lit "_" ++ path_name (path_parent nb2).
Proof.
  unfold py_name. rewrite !(app_assoc _ _ (lit ".py")).
  split; [apply app_inv_tail|by intros ->].
Qed.

(** A separator that occurs in neither right part splits in one way. *)
Lemma split_at_last (c : N) l1 r1 l2 r2 :
  c ∉ r1 -> c ∉ r2 -> l1 ++ c :: r1 = l2 ++ c :: r2 -> l1 = l2 /\ r1 = r2.
Proof.
  revert l2. induction l1 as [|x l1 IH]; intros [|y l2] H1 H2 Heq; simpl in *.
  - injection Heq as Heq. by split.
  - injection Heq as Hc Heq. subst. destruct H1.
    apply elem_of_app. right. left.
  - injection Heq as Hc Heq. subst. destruct H2.
    apply elem_of_app. right. left.
  - injection Heq as Hc Heq. subst.
    destruct (IH l2 H1 H2 Heq) as [Hl Hr]. by subst.
Qed.

(** C3, as amended: the extraction file of a notebook is fixed by its stem
    and the name of its parent directory. Two notebooks get distinct files
    when they share the stem and differ in the parent name, or share the
    parent name and differ in the stem, or differ in either while no
    parent name holds an underscore; when both stem and parent name
    agree, the file is the same. *)
Theorem py_path_distinct nb1 nb2 :
  let s1 := stem (path_name nb1) in
  let s2 := stem (path_name nb2) in
  let p1 := path_name (path_parent nb1) in
  let p2 := path_name (path_parent nb2) in
  (s1 = s2 -> p1 <> p2 -> py_path E nb1 <> py_path E nb2)
  /\ (p1 = p2 -> s1 <> s2 -> py_path E nb1 <> py_path E nb2)
  /\ (95 ∉ p1 -> 95 ∉ p2 -> (s1, p1) <> (s2, p2) -> py_path E nb1 <> py_path E nb2)
  /\ (s1 = s2 -> p1 = p2 -> py_path E nb1 = py_path E nb2).
Proof.
  intros s1 s2 p1 p2. rewrite py_path_eq, py_name_eq.
  fold s1 s2 p1 p2. split; [|split; [|split]].
  - intros -> Hp Heq. apply Hp. by repeat apply app_inv_head in Heq.
  - intros -> Hs Heq. apply Hs. by apply app_inv_tail in Heq.
  - intros H1 H2 Hne Heq. apply Hne.
    destruct (split_at_last 95 s1 p1 s2 p2 H1 H2 Heq) as [-> ->]. done.
  - by intros -> ->.
Qed.

End ExtractionFiles.

Lemma py_path_distinct_witness :
  py_path Sample.no_tools (Sample.target ++ [lit "a"; lit "nb.ipynb"])
  <> py_path Sample.no_tools (Sample.target ++ [lit "b"; lit "nb.ipynb"]).
Proof.
  destruct (py_path_distinct Sample.no_tools
              (Sample.target ++ [lit "a"; lit "nb.ipynb"])
              (Sample.target ++ [lit "b"; lit "nb.ipynb"])) as (Hparents & _).
  apply Hparents.
  - reflexivity.
  - vm_compute. discriminate.
Defined.

(** C3, as stated, fails: discovery lists two distinct notebooks that are
    extracted to one and the same file; after the batch the temporary
    directory holds a single file, with the text of the second notebook, and
    the scanner is handed that file twice. *)
Lemma same_file_for_two_notebooks :
  Sample.nb_a <> Sample.nb_b
  /\ get_notebooks (discover_targets Sample.target Sample.tree_two_notebooks
                                     true false false false)
     = [Sample.nb_a; Sample.nb_b]
  /\ py_path Sample.two_notebooks Sample.nb_a = py_path Sample.two_notebooks Sample.nb_b
  /\ py_path Sample.two_notebooks Sample.nb_a = Sample.tmp ++ [lit "nb_x.py"]
  /\ map_to_list (tmp_files (convert_batch Sample.two_notebooks [Sample.nb_a; Sample.nb_b]))
     = [(Sample.tmp ++ [lit "nb_x.py"],
         lit "# Converted from nb.ipynb" ++ [LF; LF] ++ lit "# --- Cell 1 ---" ++ [LF]
           ++ lit "import os" ++ [LF])]
  /\ py_files_nb (convert_batch Sample.two_notebooks [Sample.nb_a; Sample.nb_b])
     = [Sample.tmp ++ [lit "nb_x.py"]; Sample.tmp ++ [lit "nb_x.py"]].
Proof. vm_compute. repeat split; done. Qed.

(** ** The notebook category *)

Section NotebookCategory.

Context (E : env).

Lemma convert_one_fails b nb :
  conversion_fails E nb ->
  py_files_nb (convert_one E b nb) = py_files_nb b
  /\ length (errors (convert_one E b nb)) = S (length (errors b)).
Proof.
  intros [e He]. unfold convert_one.
  destruct (notebook_to_python (path_name nb) (read_nb E nb) (open_w E (py_path E nb))) as [file r].
  simpl in He. subst r. simpl. by rewrite length_app, Nat.add_1_r.
Qed.

Lemma foldl_convert_all_fail nbs b :
  Forall (conversion_fails E) nbs ->
  py_files_nb (foldl (convert_one E) b nbs) = py_files_nb b
  /\ length (errors (foldl (convert_one E) b nbs))
     = (length (errors b) + length nbs)%nat.
Proof.
  intros Hall. revert b. induction Hall as [|nb nbs Hnb _ IH]; intros b; simpl.
  - by rewrite Nat.add_0_r.
  - destruct (IH (convert_one E b nb)) as [-> ->].
    destruct (convert_one_fails b nb Hnb) as [-> ->]. split; [done|lia].
Qed.

(** When every notebook fails, nothing is handed to the scanner and there
    is one recorded error per notebook. *)
Lemma all_fail_no_files nbs :
  Forall (conversion_fails E) nbs ->
  py_files_nb (convert_batch E nbs) = []
  /\ length (errors (convert_batch E nbs)) = length nbs.
Proof. intros Hall. by destruct (foldl_convert_all_fail nbs (Batch ∅ [] []) Hall). Qed.

Global Instance conversion_fails_dec nb : Decision (conversion_fails E nb).
Proof.
  unfold conversion_fails.
  destruct (notebook_to_python (path_name nb) (read_nb E nb)
              (open_w E (py_path E nb))) as [file [[]|e]]; simpl.
  - right. by intros [e He].
  - left. by exists e.
Defined.

Lemma convert_one_succeeds b nb :
  ~ conversion_fails E nb ->
  py_files_nb (convert_one E b nb) = py_files_nb b ++ [py_path E nb]
  /\ errors (convert_one E b nb) = errors b.
Proof.
  intros Hok. unfold conversion_fails, convert_one in *.
  destruct (notebook_to_python (path_name nb) (read_nb E nb)
              (open_w E (py_path E nb))) as [file [[]|e]] eqn:Hnb;
    simpl in *; [|destruct Hok; by exists e].
  apply success_is_nontrivial in Hnb as (text & -> & Hsize).
  unfold nontrivial. rewrite lookup_insert_eq.
  apply N.ltb_lt in Hsize. by rewrite Hsize.
Qed.

(** The scanner is handed the extraction file of every notebook that
    converts: the size threshold excludes none of them. *)
Lemma foldl_convert_files nbs b :
  py_files_nb (foldl (convert_one E) b nbs)
  = py_files_nb b ++ (py_path E <$> filter (fun nb => ~ conversion_fails E nb) nbs).
Proof.
  revert b. induction nbs as [|nb nbs IH]; intros b; simpl.
  - by rewrite app_nil_r.
  - rewrite IH, filter_cons. destruct (decide (~ conversion_fails E nb)) as [Hok|Hfail].
    + destruct (convert_one_succeeds b nb Hok) as [-> _]. by rewrite <- app_assoc.
    + apply dec_stable in Hfail.
      by destruct (convert_one_fails b nb Hfail) as [-> _].
Qed.

Lemma convert_batch_files nbs :
  py_files_nb (convert_batch E nbs)
  = py_path E <$> filter (fun nb => ~ conversion_fails E nb) nbs.
Proof. apply (foldl_convert_files nbs (Batch ∅ [] [])). Qed.

(** No file reaches the scanner exactly when every notebook fails. *)
Lemma no_files_iff_all_fail nbs :
  py_files_nb (convert_batch E nbs) = [] <-> Forall (conversion_fails E) nbs.
Proof.
  split; [|by intros [? _]%all_fail_no_files].
  rewrite convert_batch_files. intros Hnone%fmap_nil_inv.
  apply Forall_forall. intros nb Hnb.
  destruct (decide (conversion_fails E nb)) as [|Hok]; [done|].
  assert (nb ∈ filter (fun nb => ~ conversion_fails E nb) nbs) as Hin
    by (by apply list_elem_of_filter).
  rewrite Hnone in Hin. by apply elem_of_nil in Hin.
Qed.




End NotebookCategory.


(** ** Discovery *)

Section Discovery.

Lemma fs_node_nested_ind (P : fs_node -> Prop) :
  P FsFile ->
  (forall entries, Forall (fun e => P e.2) entries -> P (FsDir entries)) ->
  forall n, P n.
Proof.
  intros Hfile Hdir. fix IH 1. intros [|entries]; [exact Hfile|].
  apply Hdir. induction entries as [|[name child] entries IHentries].
  - constructor.
  - constructor; [apply IH|exact IHentries].
Qed.

Lemma walk_dir entries : walk (FsDir entries) = entries ≫= below.
Proof.
  induction entries as [|[name child] entries IH]; [done|].
  change (walk (FsDir ((name, child) :: entries)))
    with (below (name, child) ++ walk (FsDir entries)).
  by rewrite IH.
Qed.

Lemma NoDup_fst_unique {A B} (l : list (A * B)) k v1 v2 :
  NoDup l.*1 -> (k, v1) ∈ l -> (k, v2) ∈ l -> v1 = v2.
Proof.
  induction l as [|[k' v'] l IH]; csimpl; [by intros _ ?%elem_of_nil|].
  rewrite NoDup_cons, !elem_of_cons. intros [Hk Hl] [H1|H1] [H2|H2].
  - congruence.
  - injection H1 as -> ->. destruct Hk. apply list_elem_of_fmap. by exists (k', v2).
  - injection H2 as -> ->. destruct Hk. apply list_elem_of_fmap. by exists (k', v1).
  - by apply IH.
Qed.

Lemma wf_tree_dir entries :
  wf_tree (FsDir entries) <->
  NoDup entries.*1 /\ Forall (fun e => wf_tree e.2) entries.
Proof.
  simpl. apply and_iff_compat_l.
  induction entries as [|[name child] entries IH]; simpl.
  - split; [constructor|done].
  - rewrite Forall_cons, IH. done.
Qed.

Lemma below_head e p : p ∈ below e -> head p = Some e.1.
Proof.
  unfold below. rewrite elem_of_cons, list_elem_of_fmap.
  intros [->|(q & -> & _)]; done.
Qed.

Lemma walk_nonempty tree p : p ∈ walk tree -> p <> [].
Proof.
  destruct tree as [|entries]; [by intros ?%elem_of_nil|].
  rewrite walk_dir, list_elem_of_bind. intros (e & Hp%below_head & _) ->. done.
Qed.

Lemma walk_NoDup tree : wf_tree tree -> NoDup (walk tree).
Proof.
  induction tree as [|entries IH] using fs_node_nested_ind; [constructor|].
  rewrite wf_tree_dir, walk_dir. intros [Hnames Hwf].
  apply NoDup_bind.
  - intros [n1 c1] [n2 c2] p H1 H2 Hp1%below_head Hp2%below_head.
    simpl in *. assert (n1 = n2) as <- by congruence.
    f_equal. by apply (NoDup_fst_unique entries n1).
  - intros e He. unfold below. constructor.
    + rewrite list_elem_of_fmap. intros (q & [= <-] & Hq).
      by apply walk_nonempty in Hq.
    + apply NoDup_fmap_2; [intros ?? [=]; done|].
      rewrite Forall_forall in IH, Hwf. apply IH; auto.
  - eapply NoDup_fmap_1, Hnames.
Qed.

(** *** Patterns *)

Lemma fnmatch_literal pat name :
  42 ∉ pat -> fnmatch pat name = true <-> name = pat.
Proof.
  revert name. induction pat as [|c pat IH]; intros name Hlit; simpl.
  - by destruct name.
  - apply not_elem_of_cons in Hlit as [Hc Hlit].
    destruct (N.eqb_spec c 42) as [->|_]; [done|].
    destruct name as [|d name]; [done|].
    rewrite andb_true_iff, (IH name Hlit), N.eqb_eq. naive_solver.
Qed.

Lemma fnmatch_star ext name :
  42 ∉ ext -> fnmatch (42 :: ext) name = true <-> ext `suffix_of` name.
Proof.
  intros Hlit. cbn [fnmatch]. rewrite N.eqb_refl.
  induction name as [|d name IH].
  - rewrite orb_false_r, (fnmatch_literal ext [] Hlit).
    split; [intros <-; by exists []|by intros ->%suffix_nil_inv].
  - rewrite orb_true_iff, IH, (fnmatch_literal ext _ Hlit).
    split.
    + intros [<-|H]; [done|by apply suffix_cons_r].
    + intros [k Hk]. destruct k as [|d' k]; [left; by simplify_eq/=|].
      right. exists k. by simplify_eq/=.
Qed.

(** *** Sorting *)

Global Instance path_le_total : Total path_le.
Proof.
  intros p q. unfold path_le, path_lt.
  destruct (decide (lexico q p)) as [Hqp|Hqp]; [right|by left].
  intros Hpq. by destruct (irreflexivity lexico p (transitivity Hpq Hqp)).
Qed.

Global Instance path_le_trans : Transitive path_le.
Proof.
  intros p q r Hpq Hqr Hrp. unfold path_le, path_lt in *.
  destruct (trichotomy lexico p q) as [Hlt|[->|Hlt]]; [|done..].
  destruct Hqr. by transitivity p.
Qed.

Lemma sorted_Permutation l : sorted l ≡ₚ l.
Proof. apply merge_sort_Permutation. Qed.

Lemma sorted_strictly l : NoDup l -> StronglySorted path_lt (sorted l).
Proof.
  intros Hnodup.
  assert (NoDup (sorted l)) as Hnd by (by rewrite sorted_Permutation).
  assert (StronglySorted path_le (sorted l)) as Hs
    by (apply StronglySorted_merge_sort; apply _).
  induction Hs as [|p ps Hps IH Hall]; [constructor|].
  apply NoDup_cons in Hnd as [Hp Hnd].
  constructor; [by apply IH|].
  rewrite Forall_forall in Hall |- *. intros q Hq.
  destruct (trichotomy lexico p q) as [Hlt|[->|Hlt]]; [done|done|].
  by destruct (Hall q Hq).
Qed.

Section Tree.

Context (target : path) (tree : fs_node).

Lemma path_name_below rel : rel <> [] -> path_name (target ++ rel) = path_name rel.
Proof.
  intros Hrel. unfold path_name. rewrite last_app.
  destruct (last rel) eqn:Hlast; [done|]. by apply last_None in Hlast.
Qed.

Lemma elem_of_rglob ext p :
  42 ∉ ext ->
  p ∈ rglob target tree (42 :: ext) <->
  listed target tree p /\ ext `suffix_of` path_name p.
Proof.
  intros Hlit. unfold rglob, listed. rewrite list_elem_of_fmap. split.
  - intros (rel & -> & [Hmatch Hrel]%list_elem_of_filter).
    apply Is_true_true, (fnmatch_star ext _ Hlit) in Hmatch.
    rewrite (path_name_below rel) by eauto using walk_nonempty. eauto.
  - intros [(rel & -> & Hrel) Hsuffix]. exists rel. split; [done|].
    apply list_elem_of_filter. split; [|done].
    rewrite (path_name_below rel) in Hsuffix by eauto using walk_nonempty.
    by apply Is_true_true, (fnmatch_star ext _ Hlit).
Qed.

Lemma rglob_NoDup pat : wf_tree tree -> NoDup (rglob target tree pat).
Proof.
  intros Hwf. unfold rglob.
  apply NoDup_fmap_2; [intros ??; apply app_inv_head|].
  by apply NoDup_filter, walk_NoDup.
Qed.

(** What [sorted] makes of a duplicate-free list of matches. *)
Lemma sorted_matches suffixes l :
  NoDup l ->
  (forall p, p ∈ l ->
             listed target tree p
             /\ exists ext, ext ∈ suffixes /\ ext `suffix_of` path_name p) ->
  sorted_unique_with target tree suffixes (sorted l).
Proof.
  intros Hnodup Hall. split; [by apply sorted_strictly|]. split.
  - by rewrite sorted_Permutation.
  - rewrite sorted_Permutation. by apply Forall_forall.
Qed.

Lemma elem_of_model_matches p :
  p ∈ model_exts ≫= rglob target tree ->
  listed target tree p
  /\ exists ext, ext ∈ model_suffixes /\ ext `suffix_of` path_name p.
Proof.
  rewrite list_elem_of_bind. intros (pat & Hp & Hpat).
  unfold model_exts in Hpat. unfold model_suffixes.
  repeat (apply elem_of_cons in Hpat as [->|Hpat];
          [apply (elem_of_rglob _ p) in Hp as [Hlisted Hsuffix];
           [split; [done|]; eexists; split; [|exact Hsuffix]; set_solver
           |vm_compute; set_solver]|]).
  by apply elem_of_nil in Hpat.
Qed.

End Tree.

(** C9: for every directory tree, the Python, notebook and model lists of
    discovery are in ascending (lexicographic) path order, without
    duplicates, and hold only entries of the tree whose names end in the
    suffix, or one of the suffixes, of their category; the manifest is in
    the result only if the root has an entry [requirements.txt]. *)
Theorem discovery_lists_sorted target tree scan_notebooks scan_python scan_deps scan_models :
  wf_tree tree ->
  let d := discover_targets target tree scan_notebooks scan_python scan_deps scan_models in
  (forall l, py_files d = Some l -> sorted_unique_with target tree [lit ".py"] l)
  /\ (forall l, notebooks d = Some l -> sorted_unique_with target tree [lit ".ipynb"] l)
  /\ (forall l, models d = Some l -> sorted_unique_with target tree model_suffixes l)
  /\ (forall p, requirements d = Some (Some p) ->
        p = target ++ [lit "requirements.txt"]
        /\ exists entries, tree = FsDir entries /\ lit "requirements.txt" ∈ entries.*1).
Proof.
  intros Hwf d. subst d. unfold discover_targets. cbn [py_files notebooks models requirements].
  split; [|split; [|split]].
  - destruct scan_python; [|done]. intros l [= <-].
    apply sorted_matches; [by apply rglob_NoDup|].
    intros p [Hlisted Hsuffix]%(elem_of_rglob target tree (lit ".py")); [|vm_compute; set_solver].
    split; [done|]. exists (lit ".py"). split; [set_solver|done].
  - destruct scan_notebooks; [|done]. intros l [= <-].
    apply sorted_matches; [by apply rglob_NoDup|].
    intros p [Hlisted Hsuffix]%(elem_of_rglob target tree (lit ".ipynb")); [|vm_compute; set_solver].
    split; [done|]. exists (lit ".ipynb"). split; [set_solver|done].
  - destruct scan_models; [|done]. intros l [= <-].
    apply sorted_matches; [apply NoDup_elements|].
    intros p Hp%elem_of_elements%elem_of_list_to_set.
    by apply elem_of_model_matches.
  - destruct scan_deps; [|done]. intros p.
    destruct (child_exists tree (lit "requirements.txt")) eqn:Hexists; [|done].
    intros [= <-]. split; [done|].
    destruct tree as [|entries]; [done|]. exists entries. split; [done|].
    simpl in Hexists. by apply bool_decide_eq_true in Hexists.
Qed.

(** The model list has no duplicates whatever the tree: the set takes
    them out. *)
Lemma models_NoDup target tree scan_notebooks scan_python scan_deps scan_models l :
  models (discover_targets target tree scan_notebooks scan_python scan_deps scan_models)
  = Some l -> NoDup l.
Proof.
  unfold discover_targets. cbn [models]. destruct scan_models; [|done].
  intros [= <-]. rewrite sorted_Permutation. apply NoDup_elements.
Qed.

(** The order is that of the component lists, not of the path strings: a
    directory comes before a sibling whose name extends its own, although
    ["/"] sorts after ["."] as a character. *)
Example path_order_is_by_component :
  get_py_files
    (discover_targets Sample.target
       (FsDir [(lit "a.py", FsFile); (lit "a", FsDir [(lit "b.py", FsFile)])])
       false true false false)
  = [Sample.target ++ [lit "a"; lit "b.py"]; Sample.target ++ [lit "a.py"]]
  /\ lexico (path_str (Sample.target ++ [lit "a.py"]))
            (path_str (Sample.target ++ [lit "a"; lit "b.py"])).
Proof.
  split; [vm_compute; reflexivity|].
  apply (bool_decide_unpack _). vm_compute. exact I.
Qed.

End Discovery.

Lemma sample_tree_wf : wf_tree Sample.tree_mixed.
Proof.
  simpl. repeat split; apply (bool_decide_unpack _); vm_compute; exact I.
Defined.

Lemma discovery_lists_sorted_witness :
  sorted_unique_with Sample.target Sample.tree_mixed [lit ".py"]
    [Sample.target ++ [lit "a.py"];
     Sample.target ++ [lit "src"; lit "eval.py"];
     Sample.target ++ [lit "src"; lit "train.py"]].
Proof.
  destruct (discovery_lists_sorted Sample.target Sample.tree_mixed true true true true
              sample_tree_wf) as (Hpy & _).
  apply Hpy. vm_compute. reflexivity.
Defined.

(** * Further properties of the code *)

(** ** What the extractor writes *)

Section ExtractorOutput.

Lemma success_shape name src opened :
  (notebook_to_python name src opened).2 = Return tt ->
  exists items cell cells,
    src = Loaded (JObj items)
    /\ dict_lookup (lit "cells") items = Some (JArr (cell :: cells))
    /\ opened = None
    /\ encodable name = true
    /\ Forall (fun c => cell_shape_ok c = true) (cell :: cells)
    /\ Forall (fun c => cell_unencodable c = false) (cell :: cells).
Proof.
  intros Hok.
  assert (~ amended_failure name src opened) as Hnot.
  { intros Hf. apply try_raises_iff in Hf as [e He].
    assert ((notebook_to_python name src opened).2 = Raise (RuntimeError
      (lit "Conversion failed for " ++ name ++ lit ": " ++ exc_type e ++ lit ": " ++ exc_msg e)))
      as Hr by (apply wrapped_raise; by exists e).
    congruence. }
  destruct src as [e|e|nb]; [by destruct Hnot..|].
  destruct nb as [| | | | |?|items]; try (destruct Hnot; left; by intros []).
  unfold amended_failure, shape_ok, no_cells, cells_of in Hnot.
  destruct (dict_lookup (lit "cells") items) as [v|] eqn:Hv;
    [|destruct Hnot; right; left; done].
  cbn [default from_option] in Hnot. unfold id in Hnot.
  destruct v as [| | | | |cells|?];
    try (destruct (truthy _) eqn:Ht in Hnot; destruct Hnot;
         [left; done|right; left; done]).
  destruct cells as [|cell cells]; [destruct Hnot; right; left; done|].
  exists items, cell, cells. split; [done|]. split; [done|].
  split.
  { destruct opened; [|done]. destruct Hnot. by do 2 right; left. }
  split.
  { destruct (encodable name); [done|]. destruct Hnot. by do 3 right; left. }
  split.
  { destruct (decide (Forall (fun c => cell_shape_ok c = true) (cell :: cells))); [done|].
    destruct Hnot. by left. }
  apply Forall_forall. intros c Hc.
  destruct (cell_unencodable c) eqn:Hu; [|done].
  destruct Hnot. do 4 right; left. apply Exists_exists. by exists c.
Qed.

(** X2: when the extractor succeeds, the file holds the header line naming
    the notebook and then, for each code cell with a line of code and in the
    order of the notebook, a separator with the position of the cell among
    all cells (counted from one), the lines of the cell as they are, and a
    line feed; nothing else. At least one cell is written. *)
Theorem extracted_text name src opened file :
  notebook_to_python name src opened = (file, Return tt) ->
  exists nb,
    src = Loaded nb
    /\ file = Some (header_line name ++ cell_blocks (cells_of nb))
    /\ Exists (fun cell => counts cell = true) (cells_of nb).
Proof.
  intros Hrun.
  destruct (success_shape name src opened)
    as (items & cell & cells & -> & Hcells & -> & Hname & Hshape & Henc).
  { by rewrite Hrun. }
  exists (JObj items). split; [done|].
  unfold notebook_to_python, notebook_to_python_try in Hrun.
  cbn [py_get] in Hrun. unfold cells_of. rewrite Hcells in *.
  cbn [default from_option] in Hrun. unfold id in Hrun. cbn [truthy negb py_iter] in Hrun.
  rewrite bind_write, bind_lift_return in Hrun by (by rewrite encodable_header).
  unfold fio_bind in Hrun.
  rewrite (cells_loop_blocks _ Hshape Henc) in Hrun.
  cbn [orb] in Hrun. rewrite <- existsb_Exists.
  destruct (existsb counts (cell :: cells)); [|done].
  cbn in Hrun. injection Hrun as <-. split; [|done].
  unfold header_line, cell_blocks. f_equal.
Qed.

(** X3: the extractor leaves the output file alone exactly when it fails
    before opening it (the notebook cannot be read or parsed, is no object,
    or has no cells) or cannot open it. In every other case, also when it
    then fails, the file is rewritten: it starts with the header line, or
    it is left empty when the name of the notebook cannot be encoded. *)
Theorem output_file_effect name src opened :
  ((notebook_to_python name src opened).1 = None <->
   match src with
   | ReadRaises _ | LoadsRaises _ => True
   | Loaded (JObj items) =>
       truthy (default (JArr []) (dict_lookup (lit "cells") items)) = false
       \/ opened <> None
   | Loaded _ => True
   end)
  /\ (forall text, (notebook_to_python name src opened).1 = Some text ->
        if encodable name then header_line name `prefix_of` text else text = []).
Proof.
  assert ((notebook_to_python name src opened).1
          = (notebook_to_python_try name src opened).1) as ->.
  { unfold notebook_to_python.
    by destruct (notebook_to_python_try name src opened) as [file [[]|e]]. }
  destruct src as [e|e|nb]; [done..|].
  destruct nb as [| | | | |?|items]; try done.
  unfold notebook_to_python_try. cbn [py_get].
  destruct (truthy _); cbn [negb]; [|split; [by split; [left|]|done]].
  destruct opened as [e|]; [split; [by split; [right|]|done]|].
  destruct (encodable name) eqn:Hname.
  - rewrite bind_write by (by rewrite encodable_header). unfold header_line.
    match goal with
    | |- context [fio_bind ?m ?k ?f] => destruct (fio_bind m k f) as [text r] eqn:Hbody
    end.
    split; [split; [done|by intros [|]]|]. intros ? [= <-].
    destruct (py_iter _) as [cells|e];
      rewrite ?bind_lift_return, ?bind_lift_raise in Hbody; [|by injection Hbody as <- _].
    unfold fio_bind in Hbody.
    destruct (cells_loop 0 false cells _) as [f' [found|e]] eqn:Hloop;
      apply cells_loop_prefix in Hloop.
    + by destruct (negb found); injection Hbody as <- _.
    + by injection Hbody as <- _.
  - match goal with
    | |- context [fio_bind ?m ?k []] =>
        destruct (bind_write_raises (lit "# Converted from " ++ name ++ [LF]) k []) as [e He]
    end.
    { by rewrite encodable_header. }
    rewrite He. split; [split; [done|by intros [|]]|]. by intros ? [= <-].
Qed.

End ExtractorOutput.

(** ** Names of the extraction files *)

Section Names.

Lemma rfind_app_no c s t :
  c ∉ t -> rfind c (s ++ c :: t) = Some (length s).
Proof.
  intros Hc.
  assert (rfind c t = None) as Ht.
  { induction t as [|x t IH]; [done|]. apply not_elem_of_cons in Hc as [Hx Ht].
    simpl. rewrite (IH Ht). destruct (N.eqb_spec x c); [congruence|done]. }
  induction s as [|x s IH]; simpl.
  - by rewrite Ht, N.eqb_refl.
  - by rewrite IH.
Qed.

Lemma stem_ipynb x :
  x <> [] -> stem (x ++ lit ".ipynb") = x.
Proof.
  intros Hx. unfold stem.
  change (lit ".ipynb") with (46 :: lit "ipynb").
  rewrite rfind_app_no by (vm_compute; set_solver).
  rewrite length_app. change (length (46 :: lit "ipynb")) with 6%nat.
  destruct x as [|c x]; [done|].
  destruct (Nat.ltb_spec 0 (length (c :: x))) as [_|H]; [|simpl in H; lia].
  destruct (Nat.ltb_spec (length (c :: x)) (length (c :: x) + 6 - 1)) as [_|H]; [|lia].
  cbn [andb]. by rewrite take_app_length.
Qed.

Lemma path_name_snoc p name : path_name (p ++ [name]) = name.
Proof. unfold path_name. by rewrite last_snoc. Qed.

Lemma path_parent_snoc p name : path_parent (p ++ [name]) = p.
Proof.
  unfold path_parent. rewrite length_app. simpl.
  replace (length p + 1 - 1)%nat with (length p) by lia.
  by rewrite take_app_length.
Qed.

(** X4: a notebook [x.ipynb] with a non-empty [x] in a directory named
    [folder] is extracted to the file [x_folder.py]. *)
Theorem extraction_name_of_notebook dir folder x :
  x <> [] ->
  py_name (dir ++ [folder; x ++ lit ".ipynb"]) = x ++ lit "_" ++ folder ++ lit ".py".
Proof.
  intros Hx. unfold py_name.
  replace (dir ++ [folder; x ++ lit ".ipynb"])
    with ((dir ++ [folder]) ++ [x ++ lit ".ipynb"]) by (by rewrite <- app_assoc).
  by rewrite path_name_snoc, path_parent_snoc, path_name_snoc, stem_ipynb.
Qed.
End Names.

(** ** The batch of notebooks *)

Section Batch.

Context (E : env).

Lemma convert_one_error b nb :
  conversion_fails E nb ->
  exists err,
    errors (convert_one E b nb) = errors b ++ [err]
    /\ failure_prefix nb `prefix_of` err.
Proof.
  intros [e He]. unfold convert_one.
  destruct (notebook_to_python (path_name nb) (read_nb E nb)
              (open_w E (py_path E nb))) as [file r] eqn:Hnb.
  simpl in He. subst r.
  assert ((notebook_to_python (path_name nb) (read_nb E nb)
              (open_w E (py_path E nb))).2 = Raise e) as Hr
    by (by rewrite Hnb).
  apply wrapped_raise in Hr as (inner & _ & ->).
  eexists. split; [done|]. simpl. unfold failure_prefix.
  exists (exc_type inner ++ lit ": " ++ exc_msg inner). by rewrite <- !app_assoc.
Qed.

Lemma convert_one_dom b nb p :
  is_Some (tmp_files (convert_one E b nb) !! p) ->
  is_Some (tmp_files b !! p) \/ p = py_path E nb.
Proof.
  unfold convert_one.
  destruct (notebook_to_python (path_name nb) (read_nb E nb)
              (open_w E (py_path E nb))) as [[text|] [[]|e]];
    simpl; try (destruct (nontrivial _ _)); simpl;
    rewrite ?lookup_insert_is_Some; naive_solver.
Qed.

Lemma foldl_convert_invariant nbs b :
  let b' := foldl (convert_one E) b nbs in
  (length (py_files_nb b') + length (errors b')
   = length (py_files_nb b) + length (errors b) + length nbs)%nat
  /\ (exists new, errors b' = errors b ++ new
        /\ Forall (fun err => exists nb, nb ∈ nbs /\ failure_prefix nb `prefix_of` err) new)
  /\ (forall p, is_Some (tmp_files b' !! p) ->
        is_Some (tmp_files b !! p) \/ exists nb, nb ∈ nbs /\ p = py_path E nb).
Proof.
  revert b. induction nbs as [|nb nbs IH]; intros b; simpl.
  - split; [lia|]. split; [|by left]. exists []. by rewrite app_nil_r.
  - destruct (IH (convert_one E b nb)) as (Hlen & (new & Herr & Hnew) & Hdom).
    split; [|split].
    + rewrite Hlen. destruct (decide (conversion_fails E nb)) as [Hf|Hok].
      * destruct (convert_one_fails E b nb Hf) as [-> ->]. lia.
      * destruct (convert_one_succeeds E b nb Hok) as [-> ->].
        rewrite length_app. simpl. lia.
    + destruct (decide (conversion_fails E nb)) as [Hf|Hok].
      * destruct (convert_one_error b nb Hf) as (err & Hone & Hpre).
        exists (err :: new). rewrite Herr, Hone, <- app_assoc. split; [done|].
        constructor.
        -- exists nb. split; [left|done].
        -- eapply Forall_impl; [exact Hnew|]. intros ? (nb' & ? & ?).
           exists nb'. split; [by right|done].
      * destruct (convert_one_succeeds E b nb Hok) as [_ Hsame].
        exists new. rewrite Herr, Hsame. split; [done|].
        eapply Forall_impl; [exact Hnew|]. intros ? (nb' & ? & ?).
        exists nb'. split; [by right|done].
    + intros p [Hp|(nb' & Hnb' & ->)]%Hdom.
      * apply convert_one_dom in Hp as [Hp| ->]; [by left|].
        right. exists nb. split; [left|done].
      * right. exists nb'. split; [by right|done].
Qed.

(** X6: every notebook of a batch ends in exactly one of the two lists:
    the files for the scanner and the errors together are as many as the
    notebooks; and every error starts with "Conversion failed for", the
    name of one of the notebooks and a colon. *)
Theorem batch_bookkeeping nbs :
  (length (py_files_nb (convert_batch E nbs)) + length (errors (convert_batch E nbs))
   = length nbs)%nat
  /\ Forall (fun err => exists nb, nb ∈ nbs /\ failure_prefix nb `prefix_of` err)
            (errors (convert_batch E nbs)).
Proof.
  destruct (foldl_convert_invariant nbs (Batch ∅ [] [])) as (Hlen & (new & Herr & Hnew) & _).
  split; [exact Hlen|]. unfold convert_batch. by rewrite Herr.
Qed.

(** X7: whatever the batch, every file it leaves is directly in the
    temporary directory, under the extraction name of one of the
    notebooks. *)
Theorem extraction_files_in_tmpdir nbs p text :
  tmp_files (convert_batch E nbs) !! p = Some text ->
  exists nb, nb ∈ nbs /\ p = tmpdir E ++ [py_name nb].
Proof.
  intros Hp.
  destruct (foldl_convert_invariant nbs (Batch ∅ [] [])) as (_ & _ & Hdom).
  destruct (Hdom p) as [[? H]|H]; [by eexists|simpl in H; by rewrite lookup_empty in H|exact H].
Qed.

(** X5: the scanner is handed the extraction file of every notebook whose
    conversion succeeds, in the order of the notebooks, and of no other: the
    size threshold excludes none. *)
Theorem threshold_never_excludes nbs :
  py_files_nb (convert_batch E nbs)
  = py_path E <$> filter (fun nb => ~ conversion_fails E nb) nbs.
Proof. apply convert_batch_files. Qed.

End Batch.

(** ** Blank strings *)

Section Blank.





End Blank.

(** ** Scans, phases and the exit code *)

Section Scans.

Context (E : env).

Lemma run_tool_returns cmd timeout :
  exists output code, run_tool E cmd timeout = Return (output, code).
Proof.
  unfold run_tool. destruct (subprocess_run E cmd timeout) eqn:Hrun; eauto.
  destruct (file_not_found_has_executable E _ _ Hrun) as (exe & args & ->); eauto.
Qed.



Lemma scan_notebooks_returns nbs :
  exists output code,
    scan_notebooks E nbs = Return (output, code, errors (convert_batch E nbs)).
Proof.
  unfold scan_notebooks. destruct nbs as [|nb nbs]; [by eexists _, _|].
  destruct (py_files_nb _) as [|p ps].
  - destruct (errors _); by eexists _, _.
  - destruct (run_tool_returns (bandit_cmd (p :: ps)) default_timeout)
      as (out & code & ->). by eexists _, _.
Qed.

(** X8: none of the four scan functions raises, whatever the files and
    whatever the tools do. *)
Theorem scans_never_raise :
  (forall paths, exists output code, scan_python_files E paths = Return (output, code))
  /\ (forall nbs, exists output code errs,
        scan_notebooks E nbs = Return (output, code, errs))
  /\ (forall req, exists output code, scan_dependencies E req = Return (output, code))
  /\ (forall models, exists output code, scan_models E models = Return (output, code)).
Proof.
  split; [|split; [|split]].
  - intros [|p ps]; [by eexists _, _|]. apply run_tool_returns.
  - intros nbs. destruct (scan_notebooks_returns nbs) as (out & code & H). eauto.
  - intros [req|]; [|by eexists _, _]. apply run_tool_returns.
  - intros [|p ps]; [by eexists _, _|]. apply run_tool_returns.
Qed.

(** X9: as soon as one notebook converts, the scanner is run on the
    extracted files and its status code is the code of the notebook
    category, with the errors of the other notebooks returned beside it. *)
Theorem scan_notebooks_runs_scanner nbs :
  py_files_nb (convert_batch E nbs) <> [] ->
  exists tool_output code output,
    run_tool E (bandit_cmd (py_files_nb (convert_batch E nbs))) default_timeout
    = Return (tool_output, code)
    /\ scan_notebooks E nbs = Return (output, code, errors (convert_batch E nbs)).
Proof.
  intros Hfiles. unfold scan_notebooks.
  destruct nbs as [|nb nbs]; [done|].
  destruct (py_files_nb _) as [|p ps]; [done|].
  destruct (run_tool_returns (bandit_cmd (p :: ps)) default_timeout) as (out & code & Hrun).
  exists out, code. rewrite Hrun. by eexists.
Qed.

(** *** The scan phases of the driver *)

Lemma python_phase_classify d acc :
  python_phase E d acc = classify (scan_python_files E (get_py_files d)) acc.
Proof. by destruct acc. Qed.

Lemma deps_phase_classify d acc :
  deps_phase E d acc = classify (scan_dependencies E (get_requirements d)) acc.
Proof. by destruct acc. Qed.

Lemma models_phase_classify d acc :
  models_phase E d acc = classify (scan_models E (get_models d)) acc.
Proof. by destruct acc. Qed.

Lemma notebooks_phase_classify d acc :
  notebooks_phase E d acc = classify (notebooks_outcome E (get_notebooks d)) acc.
Proof.
  destruct acc. unfold notebooks_phase, classify, notebooks_outcome.
  by destruct (scan_notebooks E (get_notebooks d)) as [[[o c] errs]|e].
Qed.

Lemma classify_return output code acc :
  classify (Return (output, code)) acc
  = match output with
    | [] => Raise unpack_error
    | _ => Return (acc.1 || bool_decide (code = 1%Z), acc.2 || bool_decide (2 ≤ code)%Z)
    end.
Proof.
  unfold classify. cbn [bind].
  destruct output as [|c output]; [done|].
  by rewrite (print_scan_section_flags (c :: output) code).
Qed.


Lemma classify_raise_is_unpack r acc e :
  (exists output code, r = Return (output, code)) ->
  classify r acc = Raise e -> e = unpack_error.
Proof.
  intros (out & code & ->). rewrite classify_return.
  destruct out; [|done]. by intros [= <-].
Qed.





Lemma classify_all_app rs1 rs2 acc :
  classify_all (rs1 ++ rs2) acc
  = do acc' <- classify_all rs1 acc; classify_all rs2 acc'.
Proof.
  revert acc. induction rs1 as [|r rs1 IH]; intros acc; [done|].
  cbn [app classify_all]. destruct (classify r acc) as [acc'|e]; [|done].
  cbn [bind]. apply IH.
Qed.

Lemma classify_all_optional (sel : bool) r phase acc :
  phase = classify r acc ->
  (if sel then phase else Return acc) = classify_all (if sel then [r] else []) acc.
Proof.
  intros ->. destruct sel; [|done]. cbn [classify_all].
  by destruct (classify r acc).
Qed.

Lemma main_classify_all target tree full python notebooks deps models :
  main E target tree full python notebooks deps models
  = do acc <- classify_all (selected_scans E target tree full python notebooks deps models)
                           (false, false);
    Return (if acc.1 || acc.2 then 1%Z else 0%Z).
Proof.
  unfold main, selected_scans.
  destruct (scan_selection full python notebooks deps models) as [[[sp sn] sd] sm].
  cbv zeta. rewrite classify_all_app.
  rewrite (classify_all_optional sp _ _ _ (python_phase_classify _ _)).
  destruct (classify_all (if sp then _ else _) _) as [acc1|e]; [|done]. cbn [bind].
  rewrite classify_all_app.
  rewrite (classify_all_optional sn _ _ _ (notebooks_phase_classify _ _)).
  destruct (classify_all (if sn then _ else _) _) as [acc2|e]; [|done]. cbn [bind].
  rewrite classify_all_app.
  rewrite (classify_all_optional sd _ _ _ (deps_phase_classify _ _)).
  destruct (classify_all (if sd then _ else _) _) as [acc3|e]; [|done]. cbn [bind].
  rewrite (classify_all_optional sm _ _ _ (models_phase_classify _ _)).
  destruct (classify_all (if sm then _ else _) _) as [[any_issue any_error]|e]; done.
Qed.




Lemma flag_step (a b : bool) code :
  (a || bool_decide (code = 1%Z)) || (b || bool_decide (2 ≤ code)%Z) = true
  <-> a || b = true \/ flags_run code.
Proof.
  unfold flags_run. rewrite !orb_true_iff, !bool_decide_eq_true. tauto.
Qed.

Lemma classify_all_flags rs acc acc' :
  classify_all rs acc = Return acc' ->
  acc'.1 || acc'.2 = true <->
  acc.1 || acc.2 = true \/ exists output code, Return (output, code) ∈ rs /\ flags_run code.
Proof.
  revert acc. induction rs as [|r rs IH]; intros acc.
  - intros [= <-]. split; [by left|]. intros [?|(? & ? & []%elem_of_nil & _)]; done.
  - cbn [classify_all]. destruct r as [[out code]|e]; [|done].
    rewrite classify_return. destruct out as [|c out]; [done|].
    cbn [bind]. intros ->%IH. cbn [fst snd]. rewrite flag_step.
    setoid_rewrite elem_of_cons. naive_solver.
Qed.

(** X12: when [main] exits, the exit code is 0 or 1, and it is 1 exactly
    when one of the scanned categories ended with a status code of 1 or of
    2 and more. *)
Theorem main_exit_code target tree full python notebooks deps models n :
  main E target tree full python notebooks deps models = Return n ->
  (n = 0%Z \/ n = 1%Z)
  /\ (n = 1%Z <->
      exists output code,
        Return (output, code) ∈ selected_scans E target tree full python notebooks deps models
        /\ flags_run code).
Proof.
  rewrite main_classify_all.
  destruct (classify_all _ _) as [acc|e] eqn:Hall; [|done].
  cbn [bind]. intros [= <-].
  apply classify_all_flags in Hall. cbn [fst snd orb] in Hall.
  destruct Hall as [Hflag Hscan]. destruct (acc.1 || acc.2).
  - split; [by right|]. split; [intros _|done].
    by destruct (Hflag eq_refl) as [?|?].
  - split; [by left|]. split; [done|]. intros H. discriminate (Hscan (or_intror H)).
Qed.


End Scans.

(** ** The report and the printed sections *)

Section Report.

Lemma startswith_app p s : startswith p (p ++ s) = true.
Proof. induction p as [|c p IH]; simpl; [done|]. by rewrite N.eqb_refl. Qed.

(** X14: the summary starts with the line of issues exactly when
    [any_issue] is set, with the line of tool errors exactly when only
    [any_error] is set, and with the line of success exactly when neither
    is: the three lines tell the three cases apart. *)
Theorem report_status_line py nb md req duration any_issue any_error :
  let summary := generate_report_summary py nb md req duration any_issue any_error in
  startswith issues_line summary = any_issue
  /\ startswith tool_errors_line summary = negb any_issue && any_error
  /\ startswith all_passed_line summary = negb any_issue && negb any_error.
Proof.
  unfold generate_report_summary.
  destruct any_issue, any_error; cbn [negb andb];
    rewrite ?startswith_app; repeat split; done.
Qed.

End Report.

Section PrintDiscovery.




End PrintDiscovery.

Section ScanSection.

(** X16: [_print_scan_section] returns [None] exactly for an empty text;
    otherwise the first flag says that the code is 1 and the second that it
    is 2 or more, so the two are never both set. *)
Theorem print_scan_section_result output code :
  (_print_scan_section output code = None <-> output = [])
  /\ (forall issue error,
        _print_scan_section output code = Some (issue, error) ->
        (issue = true <-> code = 1%Z)
        /\ (error = true <-> (2 <= code)%Z)
        /\ issue && error = false).
Proof.
  split.
  - split; [|by intros ->].
    destruct output as [|c output]; [done|].
    by rewrite (print_scan_section_flags (c :: output) code).
  - intros issue error. destruct output as [|c output]; [done|].
    rewrite (print_scan_section_flags (c :: output) code) by done.
    intros [= <- <-]. rewrite !bool_decide_eq_true. split; [done|]. split; [done|].
    repeat case_bool_decide; try done. lia.
Qed.

End ScanSection.

(** ** Discovery, in full *)

Section DiscoveryComplete.

Context (target : path) (tree : fs_node).




End DiscoveryComplete.

Section NothingFound.

Context (E : env).





End NothingFound.

(** ** Warnings of the notebook category *)

Section Warnings.

Context (E : env).

Lemma rstrip_keeps p c s :
  is_space c = false -> (p ++ [c]) `prefix_of` rstrip ((p ++ [c]) ++ s).
Proof.
  intros Hc. induction p as [|x p IH].
  - simpl. destruct (rstrip s) as [|r rs].
    + by rewrite Hc.
    + by exists (r :: rs).
  - destruct IH as [t Ht]. cbn [app rstrip].
    rewrite Ht.
    destruct ((p ++ [c]) ++ t) as [|y ys] eqn:Hy; [by destruct p|].
    exists t. cbn [app]. by rewrite Hy.
Qed.

Lemma strip_keeps c p d s :
  is_space c = false -> is_space d = false ->
  (c :: p ++ [d]) `prefix_of` strip ((c :: p ++ [d]) ++ s).
Proof.
  intros Hc Hd. unfold strip. cbn [app lstrip]. rewrite Hc.
  apply (rstrip_keeps (c :: p) d s Hd).
Qed.

Lemma strip_keeps_prefix p s c d :
  head p = Some c -> last p = Some d ->
  is_space c = false -> is_space d = false ->
  p `prefix_of` strip (p ++ s).
Proof.
  intros Hhead [q ->]%last_Some Hc Hd. unfold strip.
  assert (lstrip ((q ++ [d]) ++ s) = (q ++ [d]) ++ s) as ->.
  { destruct q as [|x q]; simpl in *.
    - injection Hhead as ->. by rewrite Hc.
    - injection Hhead as ->. by rewrite Hc. }
  by apply rstrip_keeps.
Qed.

Lemma warning_start_of_summary nb rest errs :
  exists tail,
    join [LF] ((fun e => warn_mark ++ lit " " ++ e) <$> (failure_prefix nb ++ rest) :: errs)
    = warning_start nb ++ tail.
Proof.
  assert (warn_mark ++ lit " " ++ failure_prefix nb ++ rest
          = warning_start nb ++ lit " " ++ rest) as Hfirst.
  { unfold warning_start, failure_prefix.
    change (lit " Conversion failed for ") with (lit " " ++ lit "Conversion failed for ").
    change (lit ": ") with (lit ":" ++ lit " ").
    by rewrite <- !app_assoc. }
  destruct errs as [|err2 errs]; cbn [fmap list_fmap join]; rewrite Hfirst.
  - by eexists.
  - eexists. by rewrite <- app_assoc.
Qed.

(** X17: when a conversion failed, the text of the notebook category
    starts with the warning for a failed notebook, before anything the
    scanner printed. *)
Theorem warnings_come_first nbs err errs :
  errors (convert_batch E nbs) = err :: errs ->
  exists output code nb,
    scan_notebooks E nbs = Return (output, code, err :: errs)
    /\ nb ∈ nbs
    /\ warning_start nb `prefix_of` output.
Proof.
  intros Herrs.
  destruct (foldl_convert_invariant E nbs (Batch ∅ [] [])) as (_ & (new & Hnew & Hall) & _).
  fold (convert_batch E nbs) in Hnew. rewrite Herrs in Hnew. simpl in Hnew. subst new.
  apply Forall_cons_1 in Hall as [(nb & Hnb & [rest ->]) _].
  destruct (warning_start_of_summary nb rest errs) as [tail Hsummary].
  unfold scan_notebooks. destruct nbs as [|nb0 nbs0]; [by apply elem_of_nil in Hnb|].
  rewrite Herrs, Hsummary.
  destruct (py_files_nb _) as [|p ps].
  - eexists _, _, nb. split; [done|]. split; [done|]. by exists tail.
  - destruct (run_tool_returns E (bandit_cmd (p :: ps)) default_timeout)
      as (out & code & ->).
    cbn [bind]. eexists _, _, nb. split; [done|]. split; [done|].
    rewrite <- app_assoc.
    apply (strip_keeps_prefix _ _ 226 58); [done| |done|done].
    unfold warning_start. rewrite !last_app. done.
Qed.

End Warnings.

(** ** The further properties at work *)

Lemma extracted_text_witness :
  exists nb,
    Loaded Sample.nb_hi = Loaded nb
    /\ (notebook_to_python (lit "n.ipynb") (Loaded Sample.nb_hi) None).1
       = Some (header_line (lit "n.ipynb") ++ cell_blocks (cells_of nb))
    /\ Exists (fun cell => counts cell = true) (cells_of nb).
Proof.
  apply (extracted_text (lit "n.ipynb") (Loaded Sample.nb_hi) None).
  vm_compute. reflexivity.
Defined.

Lemma extraction_name_of_notebook_witness :
  py_name (Sample.target ++ [lit "a"; lit "nb" ++ lit ".ipynb"])
  = lit "nb" ++ lit "_" ++ lit "a" ++ lit ".py".
Proof. apply extraction_name_of_notebook. discriminate. Defined.

Lemma extraction_files_in_tmpdir_witness :
  exists nb,
    nb ∈ [Sample.nb_a; Sample.nb_b]
    /\ Sample.tmp ++ [lit "nb_x.py"] = tmpdir Sample.two_notebooks ++ [py_name nb].
Proof.
  eapply (extraction_files_in_tmpdir Sample.two_notebooks [Sample.nb_a; Sample.nb_b]
            (Sample.tmp ++ [lit "nb_x.py"])).
  vm_compute. reflexivity.
Defined.

Lemma scan_notebooks_runs_scanner_witness :
  exists tool_output code output,
    run_tool Runs.reporting_tools
      (bandit_cmd (py_files_nb (convert_batch Runs.reporting_tools [Sample.nb_a])))
      default_timeout
    = Return (tool_output, code)
    /\ scan_notebooks Runs.reporting_tools [Sample.nb_a]
       = Return (output, code, errors (convert_batch Runs.reporting_tools [Sample.nb_a])).
Proof.
  apply scan_notebooks_runs_scanner. vm_compute. discriminate.
Defined.


Lemma main_exit_code_witness :
  (1 = 0 \/ 1 = 1)%Z
  /\ (1%Z = 1%Z <->
      exists output code,
        Return (output, code)
        ∈ selected_scans Runs.reporting_tools Sample.target Sample.tree_one_py
            false false false false false
        /\ flags_run code).
Proof.
  apply (main_exit_code Runs.reporting_tools Sample.target Sample.tree_one_py
           false false false false false).
  vm_compute. reflexivity.
Defined.



Lemma warnings_come_first_witness :
  exists output code nb,
    scan_notebooks Sample.broken_notebooks [Sample.nb_a; Sample.nb_b]
    = Return (output, code, [Runs.json_error; Runs.json_error])
    /\ nb ∈ [Sample.nb_a; Sample.nb_b]
    /\ warning_start nb `prefix_of` output.
Proof.
  apply warnings_come_first. vm_compute. reflexivity.
Defined.

Lemma output_file_effect_witness :
  (exists text,
      (notebook_to_python (lit "n.ipynb") (Loaded Sample.nb_hi) None).1 = Some text
      /\ header_line (lit "n.ipynb") `prefix_of` text)
  /\ (notebook_to_python Runs.undecodable_name (Loaded Sample.nb_hi) None).1 = Some []
  /\ (notebook_to_python (lit "n.ipynb") (Loaded Sample.nb_hi)
        (Some (Runs.name_too_long (Sample.tmp ++ [lit "n_a.py"])))).1 = None.
Proof.
  destruct (output_file_effect (lit "n.ipynb") (Loaded Sample.nb_hi) None) as [_ H].
  destruct (output_file_effect Runs.undecodable_name (Loaded Sample.nb_hi) None) as [_ H'].
  destruct (output_file_effect (lit "n.ipynb") (Loaded Sample.nb_hi)
              (Some (Runs.name_too_long (Sample.tmp ++ [lit "n_a.py"])))) as [[_ H''] _].
  split; [eexists; split; [|apply H]; vm_compute; reflexivity|].
  split; [|apply H''; by right].
  destruct (notebook_to_python Runs.undecodable_name (Loaded Sample.nb_hi) None).1
    as [text|] eqn:Htext; [|vm_compute in Htext; discriminate Htext].
  f_equal. exact (H' text eq_refl).
Defined.


Lemma print_scan_section_result_witness :
  (true = true <-> 1%Z = 1%Z)
  /\ (false = true <-> (2 <= 1)%Z)
  /\ true && false = false.
Proof.
  destruct (print_scan_section_result (lit "No issues identified.") 1) as [_ H].
  apply H. vm_compute. reflexivity.
Defined.
